(** * Texture extraction from GLB containers and MTL rewriting

    A shallow embedding of [scripts/extract_textures.py]
    ([extract_textures_from_glb]) and of the material pass and the rewriting
    pass of [scripts/update_mtl_and_textures.py] ([main]), together with the
    properties of them that the specification states.

    Python values are modelled as the scripts use them: [str] as [string]
    (a character is a code point below 256), [bytes] as [list byte], [int]
    as [Z], an attribute of an object as an [attr] (it can be missing,
    [None] or a value), a [dict] used for membership as a [gmap], the file
    system as a finite map from paths to nodes, and [print] as appending a
    line to the console. What belongs to Python's library or to pygltflib
    and decides no claim ([base64.b64decode], [GLTF2.load], the method
    [get_data_from_buffer_uri]) is a parameter; the two that read files
    are given the file system. *)

From Stdlib Require Import ZArith String Ascii List Lia Bool.
From stdpp Require Import base option list strings gmap pretty sorting.

(** ** Python values *)

Module Py.

Abbreviation bytes := (list Byte.byte).

(** The classes of the exceptions the scripts can meet. All of them derive
    from [Exception], so [except Exception] catches every one. *)
Inductive exn_class :=
  | TypeError
  | IndexError
  | AttributeError
  | ValueError
  | FileNotFoundError
  | FileExistsError
  | NotADirectoryError
  | IsADirectoryError
  | OSError
  | LibraryError.

(** An exception with the text that [str(e)] gives. *)
Record exn := Exn { exn_cls : exn_class; exn_str : string }.

Inductive result (A : Type) :=
  | Ok (a : A)
  | Raise (e : exn).
Arguments Ok {A} a.
Arguments Raise {A} e.

Definition rbind {A B} (r : result A) (f : A -> result B) : result B :=
  match r with
  | Ok a => f a
  | Raise e => Raise e
  end.

(** An attribute of an object: [hasattr] is false on [Missing]; the value of
    a present attribute is [None] or a proper value. *)
Inductive attr (A : Type) :=
  | Missing
  | IsNone
  | Val (a : A).
Arguments Missing {A}.
Arguments IsNone {A}.
Arguments Val {A} a.

(** [obj.name]: raises [AttributeError] when the attribute is missing. *)
Definition getattr {A} (cls name : string) (a : attr A) : result (option A) :=
  match a with
  | Missing =>
      Raise (Exn AttributeError
               ("'" +:+ cls +:+ "' object has no attribute '" +:+ name +:+ "'"))
  | IsNone => Ok None
  | Val v => Ok (Some v)
  end.

(** [hasattr(obj, 'name') and obj.name] for a string attribute: the string
    when it is present and not empty. *)
Definition truthy_str (a : attr string) : option string :=
  match a with
  | Val s => if String.eqb s "" then None else Some s
  | _ => None
  end.

(** [hasattr(obj, 'name') and obj.name] for a list attribute. *)
Definition truthy_list {A} (a : attr (list A)) : option (list A) :=
  match a with
  | Val (x :: l) => Some (x :: l)
  | _ => None
  end.

(** [l[i]] on a list: a negative index counts from the end. *)
Definition getitem {A} (l : option (list A)) (i : option Z) : result A :=
  match l, i with
  | None, _ => Raise (Exn TypeError "'NoneType' object is not subscriptable")
  | Some _, None =>
      Raise (Exn TypeError "list indices must be integers or slices, not NoneType")
  | Some l, Some i =>
      let n := Z.of_nat (length l) in
      let j := if (i <? 0)%Z then (i + n)%Z else i in
      if (j <? 0)%Z then Raise (Exn IndexError "list index out of range")
      else match l !! Z.to_nat j with
           | Some x => Ok x
           | None => Raise (Exn IndexError "list index out of range")
           end
  end.

(** [a + b] on two values that are integers or [None]. *)
Definition add (a b : option Z) : result Z :=
  match a, b with
  | Some x, Some y => Ok (x + y)%Z
  | None, Some _ =>
      Raise (Exn TypeError "unsupported operand type(s) for +: 'NoneType' and 'int'")
  | Some _, None =>
      Raise (Exn TypeError "unsupported operand type(s) for +: 'int' and 'NoneType'")
  | None, None =>
      Raise (Exn TypeError "unsupported operand type(s) for +: 'NoneType' and 'NoneType'")
  end.

(** One bound of a slice, brought into [0 .. len]. *)
Definition slice_bound (len i : Z) : Z :=
  if (i <? 0)%Z then Z.max 0 (i + len) else Z.min i len.

(** [l[start:stop]]: out-of-range bounds are clipped, never an error. *)
Definition slice {A} (l : list A) (start stop : Z) : list A :=
  let n := Z.of_nat (length l) in
  let lo := slice_bound n start in
  let hi := slice_bound n stop in
  take (Z.to_nat (hi - lo)) (drop (Z.to_nat lo) l).

(** [s.startswith(p)]. *)
Definition startswith (s p : string) : bool := String.prefix p s.

(** [s.endswith(p)] for a one-character [p]. *)
Fixpoint endswith_char (s : string) (c : ascii) : bool :=
  match s with
  | "" => false
  | String a "" => Ascii.eqb a c
  | String _ s' => endswith_char s' c
  end.

(** [c in s] for a character [c]. *)
Fixpoint contains (c : ascii) (s : string) : bool :=
  match s with
  | "" => false
  | String a s' => Ascii.eqb a c || contains c s'
  end.

(** [s.split(sep)] for a one-character separator. *)
Fixpoint split (sep : ascii) (s : string) : list string :=
  match s with
  | "" => [""]
  | String c s' =>
      if Ascii.eqb c sep then "" :: split sep s'
      else match split sep s' with
           | h :: t => String c h :: t
           | [] => [String c ""]
           end
  end.

(** [s.split(sep, 1)]: at most one split, at the first separator. *)
Fixpoint split1 (sep : ascii) (s : string) : list string :=
  match s with
  | "" => [""]
  | String c s' =>
      if Ascii.eqb c sep then [""; s']
      else match split1 sep s' with
           | h :: t => String c h :: t
           | [] => [String c ""]
           end
  end.

(** [a, b = l]: unpacking into two names. *)
Definition unpack2 {A} (l : list A) : result (A * A) :=
  match l with
  | [a; b] => Ok (a, b)
  | _ =>
      if Nat.ltb (length l) 2 then
        Raise (Exn ValueError
                 ("not enough values to unpack (expected 2, got "
                    +:+ pretty (length l) +:+ ")"))
      else Raise (Exn ValueError "too many values to unpack (expected 2)")
  end.

(** [c.isspace()] on the characters below 256. *)
Definition isspace (c : ascii) : bool :=
  let n := nat_of_ascii c in
  (Nat.leb 9 n && Nat.leb n 13) || (Nat.leb 28 n && Nat.leb n 32)
  || Nat.eqb n 133 || Nat.eqb n 160.

(** [s.split()]: the maximal runs of characters that are not white space.
    [cur] is the run being read, kept [None] between two runs. *)
Fixpoint split_ws_go (cur : option string) (s : string) : list string :=
  match s with
  | "" => match cur with Some w => [w] | None => [] end
  | String c s' =>
      if isspace c then
        match cur with
        | Some w => w :: split_ws_go None s'
        | None => split_ws_go None s'
        end
      else
        match cur with
        | Some w => split_ws_go (Some (w +:+ String c "")) s'
        | None => split_ws_go (Some (String c "")) s'
        end
  end.

Definition split_ws (s : string) : list string := split_ws_go None s.

(** [s.lstrip()], [s.rstrip()] and [s.strip()]. *)
Fixpoint lstrip (s : string) : string :=
  match s with
  | "" => ""
  | String c s' => if isspace c then lstrip s' else s
  end.

Fixpoint rstrip (s : string) : string :=
  match s with
  | "" => ""
  | String c s' =>
      match rstrip s' with
      | "" => if isspace c then "" else String c ""
      | r => String c r
      end
  end.

Definition strip (s : string) : string := rstrip (lstrip s).

(** [os.path.join(a, b)] on a POSIX system. *)
Definition path_join (a b : string) : string :=
  if startswith b "/" then b
  else if String.eqb a "" || endswith_char a "/" then a +:+ b
  else a +:+ "/" +:+ b.

(** *** Names of files

    What Python does with a path before the file system is asked:
    [repr] for the text of an error, the length of a name in bytes, and
    [posixpath.split]. *)

Definition hex_digit (n : nat) : ascii :=
  ascii_of_nat (if Nat.ltb n 10 then 48 + n else 87 + n).

(** The escape [\xhh] of a character. *)
Definition hex_escape (c : ascii) : string :=
  let n := nat_of_ascii c in
  String "092" (String "x" (String (hex_digit (n / 16))
                              (String (hex_digit (n mod 16)) ""))).

(** [c.isprintable()] on the characters below 256. *)
Definition isprintable (c : ascii) : bool :=
  let n := nat_of_ascii c in
  Nat.leb 32 n && negb (Nat.leb 127 n && Nat.leb n 160) && negb (Nat.eqb n 173).

Fixpoint repr_chars (quote : ascii) (s : string) : string :=
  match s with
  | "" => ""
  | String c s' =>
      (if Ascii.eqb c quote || Ascii.eqb c "092" then String "092" (String c "")
       else if Ascii.eqb c "009" then String "092" "t"
       else if Ascii.eqb c "010" then String "092" "n"
       else if Ascii.eqb c "013" then String "092" "r"
       else if isprintable c then String c ""
       else hex_escape c) +:+ repr_chars quote s'
  end.

(** [repr(s)] of a string: in single quotes, or in double quotes when it
    holds a single quote and no double quote. *)
Definition repr (s : string) : string :=
  let quote : ascii :=
    if contains "'" s && negb (contains "034" s) then "034"%char else "'"%char in
  String quote (repr_chars quote s +:+ String quote "").

(** The length of a name in bytes, as the file system gets it in UTF-8. *)
Fixpoint utf8_length (s : string) : N :=
  match s with
  | "" => 0%N
  | String c s' => ((if (N_of_ascii c <? 128)%N then 1 else 2) + utf8_length s')%N
  end.

(** [s.rstrip(c)] for a character [c]. *)
Fixpoint rstrip_char (c : ascii) (s : string) : string :=
  match s with
  | "" => ""
  | String a s' =>
      match rstrip_char c s' with
      | "" => if Ascii.eqb a c then "" else String a ""
      | r => String a r
      end
  end.

(** [p[:i], p[i:]] for [i = p.rfind('/') + 1]. *)
Fixpoint path_cut (p : string) : string * string :=
  match p with
  | "" => ("", "")
  | String c p' =>
      if contains "/" p' then let '(head, tail) := path_cut p' in (String c head, tail)
      else if Ascii.eqb c "/" then ("/", p')
      else ("", p)
  end.

(** [posixpath.split(p)]: the head before the last [/], without the
    slashes at its end unless it holds nothing else, and the tail after
    it. *)
Definition os_path_split (p : string) : string * string :=
  let '(head, tail) := path_cut p in
  (if String.eqb (rstrip_char "/" head) "" then head else rstrip_char "/" head, tail).

(** *** The file system and the console

    A path names a directory or a regular file with its content. The file
    system is a POSIX one with the limits of Linux, seen through the names
    that the scripts use: a name is looked up as it is spelled, without the
    slashes at its end, in the directory that [posixpath.split] gives as
    its head. The working directory (the empty head), the root and the
    names [.] and [..] are directories that are always there. The model
    has no symbolic links and no permissions. It takes two spellings of
    one file, such as [a/b], [a//b] and [a/./b], for two files, and it
    measures the last name of a path, not the names before it, against
    [NAME_MAX]. *)
Inductive node :=
  | Dir
  | File (content : bytes).

Record world := World { fs : gmap string node; stdout : list string }.

(** The errors of the system calls that the scripts make. *)
Inductive errno :=
  | ENOENT
  | EEXIST
  | ENOTDIR
  | EISDIR
  | ENAMETOOLONG.

(** The exception of a system call that failed on the path [p], with the
    text that [str(e)] gives. *)
Definition os_error (e : errno) (p : string) : exn :=
  match e with
  | ENOENT => Exn FileNotFoundError ("[Errno 2] No such file or directory: " +:+ repr p)
  | EEXIST => Exn FileExistsError ("[Errno 17] File exists: " +:+ repr p)
  | ENOTDIR => Exn NotADirectoryError ("[Errno 20] Not a directory: " +:+ repr p)
  | EISDIR => Exn IsADirectoryError ("[Errno 21] Is a directory: " +:+ repr p)
  | ENAMETOOLONG => Exn OSError ("[Errno 36] File name too long: " +:+ repr p)
  end.

(** The exception of Python for a path that holds a NUL character. *)
Definition null_byte : exn := Exn ValueError "embedded null byte".

(** [PATH_MAX] and [NAME_MAX]: a path of more than 4095 bytes and a name
    of more than 255 bytes are refused. *)
Definition too_long_path (p : string) : bool := (4095 <? utf8_length p)%N.
Definition too_long_name (n : string) : bool := (255 <? utf8_length n)%N.

(** The directories that are always there. *)
Definition all_slashes (p : string) : bool :=
  negb (String.eqb p "") && String.eqb (rstrip_char "/" p) "".

Definition always_there (p : string) : bool :=
  all_slashes p || String.eqb p "." || String.eqb p "..".

(** A path without the slashes at its end, which the kernel ignores. *)
Definition entry (p : string) : string :=
  if all_slashes p then p else rstrip_char "/" p.

(** What the head of a path is: a directory, a regular file, or nothing. *)
Definition head_node (f : gmap string node) (head : string) : option node :=
  if String.eqb head "" || always_there head then Some Dir else f !! head.

(** The error of reaching the place of [p] in its directory, if any. *)
Definition lookup_error (f : gmap string node) (p : string) : option errno :=
  if String.eqb p "" then Some ENOENT
  else if too_long_path p then Some ENAMETOOLONG
  else
    let '(head, tail) := os_path_split (entry p) in
    match head_node f head with
    | Some Dir => if too_long_name tail then Some ENAMETOOLONG else None
    | Some (File _) => Some ENOTDIR
    | None => Some ENOENT
    end.

(** [os.stat(p)]: the node that the path names, if it names one. A
    regular file is not named by a path that ends in a slash. *)
Definition stat (f : gmap string node) (p : string) : option node :=
  if contains "000" p || String.eqb p "" || too_long_path p then None
  else if always_there (entry p) then Some Dir
  else
    match f !! entry p with
    | Some (File content) =>
        if String.eqb (entry p) p then Some (File content) else None
    | n => n
    end.

(** The exception of [open(p, 'wb')], if it raises one. *)
Definition open_error (f : gmap string node) (p : string) : option exn :=
  if contains "000" p then Some null_byte
  else
    match lookup_error f p with
    | Some e => Some (os_error e p)
    | None =>
        if always_there p then Some (os_error EISDIR p)
        else if String.eqb (entry p) p then
          match f !! p with
          | Some Dir => Some (os_error EISDIR p)
          | _ => None
          end
        else
          match f !! entry p with
          | Some (File _) => Some (os_error ENOTDIR p)
          | _ => Some (os_error EISDIR p)
          end
    end.

(** **** Statements on the file system alone

    A call of [os] raises or returns, in a file system that keeps what
    was done before the exception. *)
Definition FS (A : Type) : Type := gmap string node -> result A * gmap string node.

#[global] Instance FS_ret : MRet FS := fun A a f => (Ok a, f).

#[global] Instance FS_bind : MBind FS := fun A B k m f =>
  match m f with
  | (Ok a, f') => k a f'
  | (Raise e, f') => (Raise e, f')
  end.

(** [os.path.exists(p)]. *)
Definition path_exists (p : string) : FS bool := fun f =>
  (Ok (bool_decide (is_Some (stat f p))), f).

(** [os.mkdir(p)]. *)
Definition mkdir (p : string) : FS unit := fun f =>
  if contains "000" p then (Raise null_byte, f)
  else
    match lookup_error f p with
    | Some e => (Raise (os_error e p), f)
    | None =>
        if always_there (entry p) || bool_decide (is_Some (f !! entry p))
        then (Raise (os_error EEXIST p), f)
        else (Ok (), <[entry p := Dir]> f)
    end.

(** [try: body  except FileExistsError: pass]. *)
Definition except_FileExistsError (body : FS unit) : FS unit := fun f =>
  match body f with
  | (Raise (Exn FileExistsError _), f') => (Ok (), f')
  | r => r
  end.

(** [os.makedirs(name)] as [os.py] defines it: the head of the name is made
    first, with its own head, when it is missing. The head is shorter than
    the name, and [depth] bounds the recursion: the length of the name is
    never used up ([FsFacts.makedirs_from_depth]). *)
Fixpoint makedirs_from (depth : nat) (name : string) : FS unit :=
  let '(head, tail) := os_path_split name in
  let '(head, tail) := if String.eqb tail "" then os_path_split head else (head, tail) in
  match depth with
  | S depth' =>
      if negb (String.eqb head "") && negb (String.eqb tail "") then
        found ← path_exists head;
        if negb found then
          except_FileExistsError (makedirs_from depth' head);;
          if String.eqb tail "." then mret () else mkdir name
        else mkdir name
      else mkdir name
  | 0 => mkdir name
  end.

Definition makedirs (name : string) : FS unit :=
  makedirs_from (String.length name) name.

(** [with open(p, 'wb') as f: f.write(data)]: the file is created, or an
    existing file of that name is replaced. *)
Definition open_write (p : string) (data : bytes) : FS unit := fun f =>
  match open_error f p with
  | Some e => (Raise e, f)
  | None => (Ok (), <[p := File data]> f)
  end.

(** **** Statements of a script *)

(** A statement: it runs in a world, and returns a value or raises, in
    a world that keeps what was done before the exception. *)
Definition M (A : Type) : Type := world -> result A * world.

#[global] Instance M_ret : MRet M := fun A a w => (Ok a, w).

#[global] Instance M_bind : MBind M := fun A B f m w =>
  match m w with
  | (Ok a, w') => f a w'
  | (Raise e, w') => (Raise e, w')
  end.

(** A pure computation that may raise, as a statement. *)
Definition lift {A} (r : result A) : M A := fun w => (r, w).

(** A call on the file system, as a statement. *)
Definition on_fs {A} (m : FS A) : M A := fun w =>
  let '(r, f) := m (fs w) in (r, World f (stdout w)).

(** A computation that reads the file system and may raise. *)
Definition read {A} (r : gmap string node -> result A) : M A := fun w =>
  (r (fs w), w).

(** [try: body  except Exception as e: handler e]. *)
Definition try_except {A} (body : M A) (handler : exn -> M A) : M A := fun w =>
  match body w with
  | (Ok a, w') => (Ok a, w')
  | (Raise e, w') => handler e w'
  end.

(** [print(s)]. *)
Definition print (s : string) : M unit := fun w =>
  (Ok (), World (fs w) (stdout w ++ [s])).

Definition os_path_exists (p : string) : M bool := on_fs (path_exists p).

Definition os_makedirs (p : string) : M unit := on_fs (makedirs p).

Definition write_file (p : string) (data : bytes) : M unit := on_fs (open_write p data).

(** The world after [print(line)]. *)
Definition say (line : string) (w : world) : world :=
  World (fs w) (stdout w ++ [line]).

(** The world after a statement, and what the statement returned. *)
Definition exec {A} (m : M A) (w : world) : world := snd (m w).
Definition outcome {A} (m : M A) (w : world) : result A := fst (m w).

(** [for i, x in enumerate(l): body i x], counting from [i]. *)
Fixpoint for_enumerate {A} (body : nat -> A -> M unit) (i : nat) (l : list A)
  : M unit :=
  match l with
  | [] => mret ()
  | x :: l' => body i x ;; for_enumerate body (S i) l'
  end.

End Py.

Import Py.

(** ** [scripts/extract_textures.py] *)

Module Extract.

(** The objects of a parsed container, with the attributes that the script
    reads. *)
Module Image.
Record t := Make { uri : attr string; bufferView : attr Z; mimeType : attr string }.
End Image.

Module BufferView.
Record t := Make { buffer : attr Z; byteOffset : attr Z; byteLength : attr Z }.
End BufferView.

Module Buffer.
Record t := Make { uri : attr string }.
End Buffer.

Module GLTF2.
(** [binary_blob] and [get_data_from_buffer_uri] are methods of the class.
    The field [binary_blob] holds what a call [gltf.binary_blob()] returns:
    the bytes of the embedded binary section, or [None] without one. The
    method [get_data_from_buffer_uri] reads the file that a URI names, in
    the file system it is given. *)
Record t := Make {
  buffers : attr (list Buffer.t);
  bufferViews : attr (list BufferView.t);
  images : attr (list Image.t);
  binary_blob : option bytes;
  get_data_from_buffer_uri : gmap string node -> string -> result (option bytes)
}.
End GLTF2.

(** The value of [buffer_data] after line 52: [None], a [bytes] object, or
    the bound method [gltf.binary_blob], which line 52 names and does not
    call. *)
Inductive buffer_value :=
  | NoneValue
  | BytesValue (b : bytes)
  | MethodValue.

(** Lines 65 to 72: the extension for a MIME type. *)
Definition extension_of (mimeType : attr string) : string :=
  match mimeType with
  | Val m =>
      if String.eqb m "image/jpeg" then "jpg"
      else if String.eqb m "image/png" then "png"
      else if String.eqb m "image/webp" then "webp"
      else "bin"
  | _ => "bin"
  end.

(** Line 59: [buffer_view.byteOffset if hasattr(buffer_view, 'byteOffset')
    else 0]. *)
Definition start_of (byteOffset : attr Z) : option Z :=
  match byteOffset with
  | Missing => Some 0%Z
  | IsNone => None
  | Val z => Some z
  end.

(** [f"texture_{i}.{extension}"]. *)
Definition texture_name (i : nat) (extension : string) : string :=
  "texture_" +:+ pretty i +:+ "." +:+ extension.

(** Line 52: what [get_data_from_buffer_uri] returns for a buffer with a
    URI, and the method [gltf.binary_blob] itself for a buffer without. *)
Definition buffer_data_of (gltf : GLTF2.t) (buffer : Buffer.t)
    (f : gmap string node) : result buffer_value :=
  match truthy_str (Buffer.uri buffer) with
  | Some buffer_uri =>
      rbind (GLTF2.get_data_from_buffer_uri gltf f buffer_uri) (fun data =>
      Ok (match data with
          | Some b => BytesValue b
          | None => NoneValue
          end))
  | None => Ok MethodValue
  end.

(** Line 62: [buffer_data[start:end]]. *)
Definition getitem_slice (buffer_data : buffer_value) (start stop : Z)
  : result bytes :=
  match buffer_data with
  | BytesValue b => Ok (slice b start stop)
  | MethodValue => Raise (Exn TypeError "'method' object is not subscriptable")
  | NoneValue => Raise (Exn TypeError "'NoneType' object is not subscriptable")
  end.

(** Line 47: [gltf.bufferViews[image.bufferView]]. *)
Definition buffer_view_of (gltf : GLTF2.t) (bv : Z) : result BufferView.t :=
  rbind (getattr "GLTF2" "bufferViews" (GLTF2.bufferViews gltf)) (fun views =>
  getitem views (Some bv)).

(** Line 48: [gltf.buffers[buffer_view.buffer]]. *)
Definition buffer_of (gltf : GLTF2.t) (buffer_view : BufferView.t)
  : result Buffer.t :=
  rbind (getattr "GLTF2" "buffers" (GLTF2.buffers gltf)) (fun bufs =>
  rbind (getattr "BufferView" "buffer" (BufferView.buffer buffer_view)) (fun bidx =>
  getitem bufs bidx)).

(** Line 80: [f"Error extracting image {i}: {e}"]. *)
Definition error_line (i : nat) (e : exn) : string :=
  "Error extracting image " +:+ pretty i +:+ ": " +:+ exn_str e.

Section Extractor.

(** The two library functions that the script calls: [base64.b64decode] and
    [GLTF2.load], which reads the file system. *)
Context (b64decode : string -> result bytes).
Context (GLTF2_load : gmap string node -> string -> result GLTF2.t).

(** Line 34: [content_type.split('/')[-1].split(';')[0]]. *)
Definition extension_of_header (content_type : string) : result string :=
  rbind (getitem (Some (split "/" content_type)) (Some (-1)%Z)) (fun last =>
  getitem (Some (split ";" last)) (Some 0%Z)).

(** Lines 29 to 78: the body of the [try] for descriptor [i]. *)
Definition process_image (gltf : GLTF2.t) (output_dir : string) (i : nat)
    (image : Image.t) : M unit :=
  match truthy_str (Image.uri image) with
  | Some u =>
      if startswith u "data:" then
        '(content_type, b64data) ← lift (unpack2 (split1 "," u));
        img_data ← lift (b64decode b64data);
        extension ← lift (extension_of_header content_type);
        let filename := texture_name i extension in
        write_file (path_join output_dir filename) img_data;;
        print ("Extracted " +:+ filename +:+ " from data URI")
      else
        let filename := u in
        print ("Image " +:+ pretty i +:+ " references external file: " +:+ filename)
  | None =>
      match Image.bufferView image with
      | Val bv =>
          buffer_view ← lift (buffer_view_of gltf bv);
          buffer ← lift (buffer_of gltf buffer_view);
          buffer_data ← read (buffer_data_of gltf buffer);
          match buffer_data with
          | NoneValue => print ("Could not get binary data for image " +:+ pretty i)
          | _ =>
              let start := start_of (BufferView.byteOffset buffer_view) in
              len ← lift (getattr "BufferView" "byteLength"
                            (BufferView.byteLength buffer_view));
              stop ← lift (add start len);
              (* [start] is an integer here: [add] raised on [None] *)
              img_data ← lift (getitem_slice buffer_data (default 0%Z start) stop);
              let extension := extension_of (Image.mimeType image) in
              let filename := texture_name i extension in
              write_file (path_join output_dir filename) img_data;;
              print ("Extracted " +:+ filename +:+ " from buffer view " +:+ pretty bv)
          end
      | _ => mret ()
      end
  end.

(** Lines 27 to 80: one turn of the loop, the [try] with its handler. *)
Definition loop_body (gltf : GLTF2.t) (output_dir : string) (i : nat)
    (image : Image.t) : M unit :=
  try_except (process_image gltf output_dir i image)
    (fun e => print (error_line i e)).

(** Lines 6 to 82. *)
Definition extract_textures_from_glb (glb_file output_dir : string) : M unit :=
  print ("Loading GLB file: " +:+ glb_file);;
  gltf ← read (fun f => GLTF2_load f glb_file);
  found ← os_path_exists output_dir;
  (if negb found then os_makedirs output_dir else mret ());;
  match truthy_list (GLTF2.buffers gltf) with
  | None => print "No buffers found in the GLB file."
  | Some _ =>
      match truthy_list (GLTF2.images gltf) with
      | None => print "No images found in the GLB file."
      | Some imgs =>
          print ("Found " +:+ pretty (length imgs) +:+ " images in the GLB file.");;
          for_enumerate (loop_body gltf output_dir) 0 imgs;;
          print (String "010"
                   "Texture extraction complete. Check the extracted_textures directory.")
      end
  end.

End Extractor.

End Extract.

(** ** The extractor, one descriptor at a time

    The definitions of this module are not in the script: they name what a
    descriptor comes to and what a turn of the loop leaves, for the
    statements and the proofs below. [ExtractFacts] proves that the script
    does what they say. *)

Module ExtractModel.
Import Extract.

(** What a descriptor comes to: a file to write with the line that reports
    it, a line alone, or nothing at all. *)
Inductive action :=
  | Write (path : string) (data : bytes) (line : string)
  | Say (line : string)
  | Skip.

Definition perform (a : action) : M unit :=
  match a with
  | Write path data line => write_file path data;; print line
  | Say line => print line
  | Skip => mret ()
  end.

(** A write on the file system alone: when the file cannot be opened the
    file system stays as it is. *)
Definition apply_write (p : string) (data : bytes) (f : gmap string node)
  : gmap string node :=
  match open_error f p with
  | Some _ => f
  | None => <[p := File data]> f
  end.

(** The part of a header after its last [c], and the part of a string before
    its first [c]. *)
Fixpoint after_last (c : ascii) (s : string) : string :=
  match s with
  | "" => ""
  | String a s' =>
      if contains c s' then after_last c s'
      else if Ascii.eqb a c then s' else s
  end.

Fixpoint before_first (c : ascii) (s : string) : string :=
  match s with
  | "" => ""
  | String a s' => if Ascii.eqb a c then "" else String a (before_first c s')
  end.

(** The MIME subtype of the header of a data URI, in the words of the
    specification: what follows the last [/], up to a [;]. *)
Definition spec_subtype (header : string) : string :=
  before_first ";" (after_last "/" header).

(** What one turn of the loop does to the file system. *)
Definition fs_step (r : result action) (f : gmap string node) : gmap string node :=
  match r with
  | Ok (Write p data _) => apply_write p data f
  | _ => f
  end.

(** The world after the turn of the loop for descriptor [i], when the
    descriptor resolves to [r]. *)
Definition turn (i : nat) (r : result action) (w : world) : world :=
  match r with
  | Ok (Write p data line) =>
      match open_error (fs w) p with
      | Some e => World (fs w) (stdout w ++ [error_line i e])
      | None => World (<[p := File data]> (fs w)) (stdout w ++ [line])
      end
  | Ok (Say line) => World (fs w) (stdout w ++ [line])
  | Ok Skip => w
  | Raise e => World (fs w) (stdout w ++ [error_line i e])
  end.

(** Lines 11 and 12 on the file system:
    [if not os.path.exists(output_dir): os.makedirs(output_dir)]. *)
Definition make_output_dir (output_dir : string) : FS unit :=
  found ← path_exists output_dir;
  if negb found then makedirs output_dir else mret ().




(** A file system that grew towards the path [p]: nothing changed but
    for directories that were made where nothing was, at [p] or at a
    path that [p] starts with. *)
Definition grows_towards (p : string) (f f' : gmap string node) : Prop :=
  ∀ q, f' !! q = f !! q
       ∨ (f !! q = None ∧ f' !! q = Some Dir ∧ ∃ rest, p = q +:+ rest).

(** What the turns that resolve to [rs] do to the file system. *)
Definition fs_steps (rs : list (result action)) (f : gmap string node)
  : gmap string node :=
  foldl (λ f r, fs_step r f) f rs.

(** The last write on the path [p] among the results [rs]. *)
Fixpoint last_write (rs : list (result action)) (p : string) : option bytes :=
  match rs with
  | [] => None
  | r :: rs' =>
      match last_write rs' p with
      | Some data => Some data
      | None =>
          match r with
          | Ok (Write q data _) => if decide (q = p) then Some data else None
          | _ => None
          end
      end
  end.

(** The results [rs] are those of descriptors counted from [i]: a write
    goes to a texture path of its own position, with no [/] in the
    extension. *)
Definition indexed (output_dir : string) (i : nat) (rs : list (result action))
  : Prop :=
  ∀ j p data line, rs !! j = Some (Ok (Write p data line)) →
    ∃ ext, p = path_join output_dir (texture_name (i + j) ext)
           ∧ contains "/" ext = false.

(** What a run may have changed in a file system [f]: directories where
    nothing was, and the files [texture_<i>.<ext>] of the output
    directory. *)
Definition run_changes (output_dir : string) (f f' : gmap string node) : Prop :=
  ∀ q, f' !! q = f !! q
       ∨ (f !! q = None ∧ f' !! q = Some Dir)
       ∨ ∃ (i : nat) ext, q = path_join output_dir (texture_name i ext).

(** The buffers of [gltf] read the same in [f] and in [f']: the method
    [get_data_from_buffer_uri] returns the same for the URI of each. *)
Definition same_reads (gltf : GLTF2.t) (f f' : gmap string node) : Prop :=
  ∀ bufs buffer buffer_uri,
    GLTF2.buffers gltf = Val bufs → buffer ∈ bufs →
    truthy_str (Buffer.uri buffer) = Some buffer_uri →
    GLTF2.get_data_from_buffer_uri gltf f' buffer_uri
    = GLTF2.get_data_from_buffer_uri gltf f buffer_uri.

Section Model.

Context (b64decode : string -> result bytes).

(** What descriptor [i] resolves to in the file system [f], before
    anything is done: the same steps as [process_image], with the write
    and the print as data. *)
Definition resolve (gltf : GLTF2.t) (output_dir : string) (i : nat)
    (image : Image.t) (f : gmap string node) : result action :=
  match truthy_str (Image.uri image) with
  | Some u =>
      if startswith u "data:" then
        rbind (unpack2 (split1 "," u)) (fun '(content_type, b64data) =>
        rbind (b64decode b64data) (fun img_data =>
        rbind (extension_of_header content_type) (fun extension =>
        let filename := texture_name i extension in
        Ok (Write (path_join output_dir filename) img_data
              ("Extracted " +:+ filename +:+ " from data URI")))))
      else Ok (Say ("Image " +:+ pretty i +:+ " references external file: " +:+ u))
  | None =>
      match Image.bufferView image with
      | Val bv =>
          rbind (buffer_view_of gltf bv) (fun buffer_view =>
          rbind (buffer_of gltf buffer_view) (fun buffer =>
          rbind (buffer_data_of gltf buffer f) (fun buffer_data =>
          match buffer_data with
          | NoneValue => Ok (Say ("Could not get binary data for image " +:+ pretty i))
          | _ =>
              let start := start_of (BufferView.byteOffset buffer_view) in
              rbind (getattr "BufferView" "byteLength"
                       (BufferView.byteLength buffer_view)) (fun len =>
              rbind (add start len) (fun stop =>
              rbind (getitem_slice buffer_data (default 0%Z start) stop) (fun img_data =>
              let filename := texture_name i (extension_of (Image.mimeType image)) in
              Ok (Write (path_join output_dir filename) img_data
                    ("Extracted " +:+ filename +:+ " from buffer view " +:+ pretty bv)))))
          end)))
      | _ => Ok Skip
      end
  end.

(** The world after the turns for the descriptors [l], counted from [i]. *)
Fixpoint turns (gltf : GLTF2.t) (output_dir : string) (i : nat)
    (l : list Image.t) (w : world) : world :=
  match l with
  | [] => w
  | image :: l' =>
      turns gltf output_dir (S i) l'
        (turn i (resolve gltf output_dir i image (fs w)) w)
  end.

(** What the descriptors [l], counted from [i], resolve to in turn, each in
    the file system that the turns before it left. *)
Fixpoint trace (gltf : GLTF2.t) (output_dir : string) (i : nat)
    (l : list Image.t) (w : world) : list (result action) :=
  match l with
  | [] => []
  | image :: l' =>
      resolve gltf output_dir i image (fs w)
        :: trace gltf output_dir (S i) l'
             (turn i (resolve gltf output_dir i image (fs w)) w)
  end.

(** The world after a run on a container that loaded as [gltf], when lines
    11 and 12 raised nothing. *)
Definition final (gltf : GLTF2.t) (glb_file output_dir : string) (w : world)
  : world :=
  let w1 := World (snd (make_output_dir output_dir (fs w)))
              (stdout w ++ ["Loading GLB file: " +:+ glb_file]) in
  match truthy_list (GLTF2.buffers gltf) with
  | None => say "No buffers found in the GLB file." w1
  | Some _ =>
      match truthy_list (GLTF2.images gltf) with
      | None => say "No images found in the GLB file." w1
      | Some imgs =>
          say (String "010"
                 "Texture extraction complete. Check the extracted_textures directory.")
            (turns gltf output_dir 0 imgs
               (say ("Found " +:+ pretty (length imgs) +:+ " images in the GLB file.") w1))
      end
  end.

End Model.

End ExtractModel.

(** ** A decoder of the standard base64 alphabet

    [base64.b64decode] belongs to Python's library and stays a parameter of
    the extractor. This decoder of well-padded input instantiates it in the
    examples. *)

Module Base64.

Definition digit (c : ascii) : option N :=
  let n := N_of_ascii c in
  if (65 <=? n)%N && (n <=? 90)%N then Some (n - 65)%N
  else if (97 <=? n)%N && (n <=? 122)%N then Some (n - 71)%N
  else if (48 <=? n)%N && (n <=? 57)%N then Some (n + 4)%N
  else if (n =? 43)%N then Some 62%N
  else if (n =? 47)%N then Some 63%N
  else None.

Definition byte_of (n : N) : Byte.byte :=
  default Byte.x00 (Byte.of_N (n mod 256)).

Definition error : exn := Exn LibraryError "Incorrect padding".

Definition is_pad (c : ascii) : bool := Ascii.eqb c "=".

Fixpoint decode (s : string) : result bytes :=
  match s with
  | "" => Ok []
  | String a (String b (String c (String d rest))) =>
      match digit a, digit b with
      | Some x, Some y =>
          let b1 := byte_of (x * 4 + y / 16) in
          if is_pad c then
            if is_pad d && String.eqb rest "" then Ok [b1] else Raise error
          else
            match digit c with
            | Some z =>
                let b2 := byte_of (y * 16 + z / 4) in
                if is_pad d then
                  if String.eqb rest "" then Ok [b1; b2] else Raise error
                else
                  match digit d with
                  | Some t =>
                      let b3 := byte_of (z * 64 + t) in
                      rbind (decode rest) (fun l => Ok (b1 :: b2 :: b3 :: l))
                  | None => Raise error
                  end
            | None => Raise error
            end
      | _, _ => Raise error
      end
  | _ => Raise error
  end.

End Base64.

(** ** [scripts/update_mtl_and_textures.py]

    The text passes of [main]: reading the material names (lines 19 to 24),
    mapping materials to textures (lines 35 to 48) and writing the updated
    file (lines 75 to 85). The directory pass between them (lines 52 to 69)
    works on [renamed_textures] alone and is not part of the model. The
    text of a file is the text as Python reads it, after the translation of
    line ends. *)

Module Mtl.

(** [for line in f]: the lines of a text, each with its line end. *)
Fixpoint readlines (s : string) : list string :=
  match s with
  | "" => []
  | String c s' =>
      if Ascii.eqb c "010" then String c "" :: readlines s'
      else match readlines s' with
           | [] => [String c ""]
           | l :: ls => String c l :: ls
           end
  end.

(** Lines 23 and 81: [line.strip().split()[1]]. *)
Definition material_of_line (line : string) : result string :=
  getitem (Some (split_ws (strip line))) (Some 1%Z).

(** Lines 19 to 24: the names after [newmtl], in the order of the file. *)
Fixpoint read_materials (lines : list string) : result (list string) :=
  match lines with
  | [] => Ok []
  | line :: rest =>
      if startswith line "newmtl" then
        rbind (material_of_line line) (fun material_name =>
        rbind (read_materials rest) (fun materials =>
        Ok (material_name :: materials)))
      else read_materials rest
  end.

(** The characters that [.] matches, up to the next line end. *)
Fixpoint dots (s : string) : string :=
  match s with
  | "" => ""
  | String c s' => if Ascii.eqb c "010" then "" else String c (dots s')
  end.

(** Line 39: group 1 of [re.search(r'Material_(.+)', s)], at the leftmost
    place where the pattern matches. *)
Fixpoint search_material (s : string) : option string :=
  match s with
  | "" => None
  | String c s' =>
      let here :=
        if startswith s "Material_" then
          match dots (String.substring 9 (String.length s - 9) s) with
          | "" => None
          | g => Some g
          end
        else None in
      match here with
      | Some g => Some g
      | None => search_material s'
      end
  end.

(** Line 43: [f"Image_{material_suffix}.png"]. *)
Definition expected_texture (material_suffix : string) : string :=
  "Image_" +:+ material_suffix +:+ ".png".

(** Line 48: the warning for a material without its texture. *)
Definition warning_line (material expected : string) : string :=
  "Warning: No texture found for material " +:+ material
    +:+ " (expected " +:+ expected +:+ ")".

(** Lines 37 to 48: the mapping loop. The dictionary is used for
    membership and lookup only. *)
Fixpoint map_materials (textures materials : list string)
    (material_texture_map : gmap string string) : M (gmap string string) :=
  match materials with
  | [] => mret material_texture_map
  | material :: rest =>
      match search_material material with
      | Some material_suffix =>
          let expected := expected_texture material_suffix in
          if bool_decide (expected ∈ textures) then
            print ("Mapped " +:+ material +:+ " -> " +:+ expected);;
            map_materials textures rest (<[material := expected]> material_texture_map)
          else
            print (warning_line material expected);;
            map_materials textures rest material_texture_map
      | None => map_materials textures rest material_texture_map
      end
  end.

(** Line 85: the line written after an [illum] line. *)
Definition map_Kd_line (material : string) : string :=
  "map_Kd " +:+ material +:+ ".png" +:+ String "010" "".

(** Line 82: [current_material in material_texture_map]. *)
Definition mapped (material_texture_map : gmap string string)
    (current_material : option string) : bool :=
  match current_material with
  | Some m => bool_decide (is_Some (material_texture_map !! m))
  | None => false
  end.

(** Lines 76 to 85: the strings written to the updated file, and the
    exception that stopped the pass, if any. *)
Fixpoint update_mtl (material_texture_map : gmap string string)
    (current_material : option string) (lines : list string)
  : list string * option exn :=
  match lines with
  | [] => ([], None)
  | line :: rest =>
      if startswith line "newmtl" then
        match material_of_line line with
        | Ok m =>
            let '(out, e) := update_mtl material_texture_map (Some m) rest in
            (line :: out, e)
        | Raise e => ([line], Some e)
        end
      else if startswith line "illum" && mapped material_texture_map current_material then
        let '(out, e) := update_mtl material_texture_map current_material rest in
        (line :: map_Kd_line (default "" current_material) :: out, e)
      else
        let '(out, e) := update_mtl material_texture_map current_material rest in
        (line :: out, e)
  end.

End Mtl.

(** ** The updated file, line by line

    The definitions of this module are not in the script: they say which
    lines the updated file has, for the statements below. *)

Module MtlModel.
Import Mtl.

(** The updated file in the words of the specification. The material of a
    directive is the one named on the last [newmtl] line before it. *)
Definition owner (before : list string) : option string :=
  match last (filter (fun line => startswith line "newmtl" = true) before) with
  | Some line =>
      match material_of_line line with
      | Ok m => Some m
      | Raise _ => None
      end
  | None => None
  end.

(** What is inserted after a line: the [map_Kd] line of its material, when
    the line is an [illum] directive of a material with a mapped texture. *)
Definition inserted (material_texture_map : gmap string string)
    (before : list string) (line : string) : list string :=
  if startswith line "illum" then
    match owner before with
    | Some m =>
        if bool_decide (is_Some (material_texture_map !! m)) then [map_Kd_line m]
        else []
    | None => []
    end
  else [].

Fixpoint spec_update_from (material_texture_map : gmap string string)
    (before rest : list string) : list string :=
  match rest with
  | [] => []
  | line :: rest' =>
      line :: inserted material_texture_map before line
        ++ spec_update_from material_texture_map (before ++ [line]) rest'
  end.

Definition spec_update (material_texture_map : gmap string string)
    (lines : list string) : list string :=
  spec_update_from material_texture_map [] lines.

(** The text of a file after the writes [l]. *)
Definition written (l : list string) : string := foldr String.append "" l.

(** What the mapping pass prints for one material: that it is mapped, a
    warning when the texture of its suffix is not in the listing, and
    nothing for a name without [Material_<suffix>]. *)
Definition report (textures : list string) (material : string) : list string :=
  match search_material material with
  | Some suffix =>
      if bool_decide (expected_texture suffix ∈ textures)
      then ["Mapped " +:+ material +:+ " -> " +:+ expected_texture suffix]
      else [warning_line material (expected_texture suffix)]
  | None => []
  end.

(** A full line: some characters and then the one line end. *)
Fixpoint is_line (s : string) : bool :=
  match s with
  | "" => false
  | String c s' => if Ascii.eqb c "010" then String.eqb s' "" else is_line s'
  end.

(** A text without white space. *)
Fixpoint no_space (s : string) : bool :=
  match s with
  | "" => true
  | String c s' => negb (isspace c) && no_space s'
  end.

End MtlModel.

(** ** Containers for the examples

    A scene of 200 bytes, the byte at position [k] being [k], and six
    descriptors: a JPEG in the bytes 100 to 149, a PNG in a data URI, an
    external file, a descriptor whose buffer view does not exist, one
    whose view runs past the end of the buffer, and one with a file name
    and a buffer view at once. *)

Module Example.
Import Extract.

Definition blob : bytes := (fun k => Base64.byte_of (N.of_nat k)) <$> seq 0 200.

Definition jpeg : Image.t :=
  Image.Make IsNone (Val 0%Z) (Val "image/jpeg").
Definition png : Image.t :=
  Image.Make (Val "data:image/png;base64,aGVsbG8=") IsNone IsNone.
Definition external : Image.t :=
  Image.Make (Val "wood.png") IsNone IsNone.
Definition dangling : Image.t :=
  Image.Make IsNone (Val 7%Z) (Val "image/png").
Definition oversized : Image.t :=
  Image.Make IsNone (Val 1%Z) IsNone.
Definition named_view : Image.t :=
  Image.Make (Val "wood.png") (Val 0%Z) (Val "image/jpeg").

(** The method [get_data_from_buffer_uri] for a URI that is the name of a
    file: the bytes of the file, and [None] when there is no such file. *)
Definition read_uri (f : gmap string node) (uri : string) : result (option bytes) :=
  match f !! uri with
  | Some (File content) => Ok (Some content)
  | _ => Ok None
  end.

Definition views : list BufferView.t :=
  [BufferView.Make (Val 0%Z) (Val 100%Z) (Val 50%Z);
   BufferView.Make (Val 0%Z) (Val 190%Z) (Val 50%Z)].

(** The scene with its bytes in the file [scene.bin], which the buffer
    names by its URI. *)
Definition gltf : GLTF2.t :=
  GLTF2.Make
    (Val [Buffer.Make (Val "scene.bin")])
    (Val views)
    (Val [jpeg; png; external; dangling; oversized; named_view])
    None
    read_uri.

(** The scene as a GLB file: the bytes are the embedded binary section,
    and the buffer has no URI. *)
Definition glb : GLTF2.t :=
  GLTF2.Make (Val [Buffer.Make IsNone]) (Val views) (Val [jpeg; oversized])
    (Some blob) read_uri.

(** A container with an image and no buffer. *)
Definition empty : GLTF2.t :=
  GLTF2.Make (Val []) (Val []) (Val [jpeg]) None read_uri.

(** A container whose one image is in a data URI: it has no buffer. *)
Definition inline : GLTF2.t :=
  GLTF2.Make (Val []) (Val []) (Val [png]) None read_uri.

(** A container whose buffer is the file that a run writes for its image. *)
Definition aliased : GLTF2.t :=
  GLTF2.Make
    (Val [Buffer.Make (Val "extracted_textures/texture_0.bin")])
    (Val [BufferView.Make (Val 0%Z) (Val 100%Z) (Val 50%Z)])
    (Val [Image.Make IsNone (Val 0%Z) IsNone])
    None
    read_uri.

Definition load (f : gmap string node) (glb_file : string) : result GLTF2.t :=
  if String.eqb glb_file "ValeroRefinery.glb" then Ok gltf
  else if String.eqb glb_file "scene.glb" then Ok glb
  else if String.eqb glb_file "empty.glb" then Ok empty
  else if String.eqb glb_file "inline.gltf" then Ok inline
  else if String.eqb glb_file "aliased.gltf" then Ok aliased
  else Raise (Exn LibraryError ("[Errno 2] No such file or directory: '" +:+ glb_file +:+ "'")).

(** An empty file system; the file of the buffer; the same with the output
    directory; and the buffer of [aliased] in the output directory. *)
Definition w0 : world := World ∅ [].
Definition w1 : world := World {[ "scene.bin" := File blob ]} [].
Definition w2 : world :=
  World {[ "scene.bin" := File blob; "extracted_textures" := Dir ]} [].

(** A material file, its texture directory and its updated file. *)
Definition nl : string := String "010" "".

Definition mtl : string :=
  "newmtl Material_0.1000" +:+ nl +:+ "Kd 1 1 1" +:+ nl +:+ "illum 2" +:+ nl
  +:+ "newmtl Wood" +:+ nl +:+ "illum 1" +:+ nl
  +:+ "newmtl Material_7" +:+ nl +:+ "illum 2" +:+ nl.

Definition textures : list string := ["Image_0.1000.png"].

Definition updated_mtl : string :=
  "newmtl Material_0.1000" +:+ nl +:+ "Kd 1 1 1" +:+ nl +:+ "illum 2" +:+ nl
  +:+ "map_Kd Material_0.1000.png" +:+ nl
  +:+ "newmtl Wood" +:+ nl +:+ "illum 1" +:+ nl
  +:+ "newmtl Material_7" +:+ nl +:+ "illum 2" +:+ nl.

End Example.

(** ** More of [scripts/update_mtl_and_textures.py]

    Lines 29 and 30 of [main], on the names that [os.listdir] returned, and
    the texture that the mapping loop gives one material. *)

Module Listing.
Import Mtl.

(** [s.endswith(suffix)]. *)
Fixpoint endswith (s suffix : string) : bool :=
  String.eqb s suffix
  || match s with
     | "" => false
     | String _ s' => endswith s' suffix
     end.

(** Lines 29 and 30: the names that end in [.png], then [textures.sort()],
    which orders strings by their code points. *)
Definition textures_of (listing : list string) : list string :=
  merge_sort String.le (filter (fun f => endswith f ".png" = true) listing).

(** Lines 39 to 45 for one material: the texture it is mapped to, if any. *)
Definition texture_for (textures : list string) (material : string)
  : option string :=
  match search_material material with
  | Some material_suffix =>
      if bool_decide (expected_texture material_suffix ∈ textures)
      then Some (expected_texture material_suffix)
      else None
  | None => None
  end.

End Listing.

(** ** More containers for the examples *)

Module Example2.
Import Extract.

(** A descriptor with neither URI nor buffer view, a data URI without
    comma, and a data URI whose payload is not base64. *)
Definition bare : Image.t := Image.Make IsNone IsNone (Val "image/png").
Definition no_comma : Image.t := Image.Make (Val "data:image/png;base64") IsNone IsNone.
Definition bad_payload : Image.t :=
  Image.Make (Val "data:image/png;base64,a") IsNone IsNone.

(** A view that counts its offset from the end of the buffer. *)
Definition from_end : GLTF2.t :=
  GLTF2.Make (Val [Buffer.Make (Val "scene.bin")])
    (Val [BufferView.Make (Val 0%Z) (Val (-10)%Z) (Val 4%Z)])
    (Val [Example.jpeg]) None Example.read_uri.

End Example2.

(** ** Definitions used by the statements and the proofs *)

Module Facts.

(** A string of decimal digits. *)
Definition is_digit (c : ascii) : bool :=
  let n := nat_of_ascii c in Nat.leb 48 n && Nat.leb n 57.

Fixpoint digits (s : string) : bool :=
  match s with
  | "" => true
  | String c s' => is_digit c && digits s'
  end.


End Facts.

Import Facts.

(** ** Facts on the Python values *)

Module PyFacts.

#[local] Arguments String.append !s1 s2 : simpl nomatch.

Lemma pretty_N_char_digit x : is_digit (pretty_N_char x) = true.
Proof. unfold pretty_N_char. by repeat case_match. Qed.

Lemma pretty_N_go_digits x s : digits s = true → digits (pretty_N_go x s) = true.
Proof.
  revert s. induction (N.lt_wf_0 x) as [x _ IH]; intros s Hs.
  destruct (decide (x = 0)%N) as [->|Hx]; [by rewrite pretty_N_go_0|].
  rewrite pretty_N_go_step by lia. apply IH.
  - apply N.div_lt; lia.
  - simpl. by rewrite pretty_N_char_digit.
Qed.

Lemma pretty_nat_digits (n : nat) : digits (pretty n) = true.
Proof.
  unfold pretty, pretty_nat, pretty, pretty_N. case_decide; [done|].
  by apply pretty_N_go_digits.
Qed.

(** Two texts that start with digits and then a dot have the same digits. *)
Lemma digits_dot_inj s1 s2 t1 t2 :
  digits s1 = true → digits s2 = true →
  s1 +:+ "." +:+ t1 = s2 +:+ "." +:+ t2 → s1 = s2.
Proof.
  revert s2. induction s1 as [|c s1 IH]; intros [|d s2] H1 H2 Heq; simpl in *.
  - done.
  - injection Heq as <- _. by apply andb_true_iff in H2 as [? _].
  - injection Heq as -> _. by apply andb_true_iff in H1 as [? _].
  - injection Heq as -> Heq. f_equal.
    apply andb_true_iff in H1 as [_ H1]. apply andb_true_iff in H2 as [_ H2].
    by apply IH.
Qed.

Lemma app_string_inv_l (p s t : string) : p +:+ s = p +:+ t → s = t.
Proof. induction p as [|c p IH]; simpl; [done|]. intros [= ?]. auto. Qed.

Lemma app_string_assoc (a b c : string) : (a +:+ b) +:+ c = a +:+ b +:+ c.
Proof. induction a as [|x a IH]; simpl; congruence. Qed.

Lemma app_string_length (a b : string) :
  String.length (a +:+ b) = String.length a + String.length b.
Proof. induction a as [|x a IH]; simpl; congruence. Qed.

(** A slice with bounds that are not negative is a [take] of a [drop],
    whether the bounds fit the list or not. *)
Lemma slice_take_drop {A} (l : list A) (off len : Z) :
  (0 ≤ off)%Z → (0 ≤ len)%Z →
  slice l off (off + len) = take (Z.to_nat len) (drop (Z.to_nat off) l).
Proof.
  intros Hoff Hlen. unfold slice, slice_bound. cbv zeta.
  destruct (Z.ltb_spec off 0); [lia|]. destruct (Z.ltb_spec (off + len) 0); [lia|].
  destruct (decide (off ≤ Z.of_nat (length l))%Z) as [Hle|Hgt].
  - rewrite (Z.min_l off) by done.
    destruct (decide (off + len ≤ Z.of_nat (length l))%Z).
    + rewrite Z.min_l by done. f_equal. lia.
    + rewrite Z.min_r by lia.
      rewrite !take_ge; [done|rewrite length_drop; lia..].
  - rewrite !Z.min_r by lia. rewrite !drop_ge by lia. by rewrite !take_nil.
Qed.

Lemma getitem_last {A} (l : list A) (x : A) :
  last l = Some x → getitem (Some l) (Some (-1)%Z) = Ok x.
Proof.
  intros Hlast. unfold getitem.
  destruct l as [|y l]; [done|]. cbv zeta.
  destruct (Z.ltb_spec (-1) 0); [|lia].
  rewrite last_lookup in Hlast. rewrite length_cons in *.
  destruct (Z.ltb_spec (-1 + Z.of_nat (S (length l))) 0); [lia|].
  replace (Z.to_nat (-1 + Z.of_nat (S (length l)))) with (pred (S (length l))) by lia.
  by rewrite Hlast.
Qed.

End PyFacts.

(** ** Facts on paths *)

Module PathFacts.
Import ExtractModel.

#[local] Arguments String.append !s1 s2 : simpl nomatch.

Lemma app_string_nil_r (s : string) : s +:+ "" = s.
Proof. induction s as [|c s IH]; simpl; congruence. Qed.


Lemma contains_app c a b : contains c (a +:+ b) = contains c a || contains c b.
Proof.
  induction a as [|x a IH]; simpl; [done|]. by rewrite IH, orb_assoc.
Qed.

Lemma rstrip_char_prefix c s : ∃ rest, s = rstrip_char c s +:+ rest.
Proof.
  induction s as [|a s [rest IH]]; simpl; [by exists ""|].
  destruct (rstrip_char c s) as [|b r] eqn:Hr.
  - destruct (Ascii.eqb a c); [by exists (String a s)|]. by exists s.
  - exists rest. simpl in *. by f_equal.
Qed.

Lemma rstrip_char_id c s : endswith_char s c = false → rstrip_char c s = s.
Proof.
  induction s as [|a s IH]; [done|].
  destruct s as [|b s'].
  - simpl. by intros ->.
  - intros H. change (endswith_char (String b s') c = false) in H.
    change (rstrip_char c (String a (String b s')))
      with (match rstrip_char c (String b s') with
            | "" => if Ascii.eqb a c then "" else String a ""
            | r => String a r
            end).
    by rewrite (IH H).
Qed.


Lemma endswith_char_app s t c : t ≠ "" → endswith_char (s +:+ t) c = endswith_char t c.
Proof.
  intros Ht. induction s as [|a s IH]; [done|].
  change (String a s +:+ t) with (String a (s +:+ t)).
  destruct (s +:+ t) as [|b r] eqn:Hst.
  - destruct s; [simpl in Hst; done|discriminate].
  - rewrite <-IH. done.
Qed.

Lemma endswith_char_contains s c : endswith_char s c = true → contains c s = true.
Proof.
  induction s as [|a s IH]; [done|]. destruct s as [|b s'].
  - simpl. intros H. by rewrite H.
  - intros H. change (endswith_char (String b s') c = true) in H.
    change (contains c (String a (String b s')))
      with (Ascii.eqb a c || contains c (String b s')).
    rewrite (IH H). apply orb_true_r.
Qed.

Lemma path_cut_app p : fst (path_cut p) +:+ snd (path_cut p) = p.
Proof.
  induction p as [|c p IH]; [done|]. cbn [path_cut]. destruct (contains "/" p).
  - destruct (path_cut p) as [h t]. simpl in *. by rewrite IH.
  - destruct (Ascii.eqb_spec c "/") as [->|]; done.
Qed.

Lemma path_cut_dir pre n :
  contains "/" n = false → pre = "" ∨ endswith_char pre "/" = true →
  path_cut (pre +:+ n) = (pre, n).
Proof.
  intros Hn. induction pre as [|c pre IH]; intros Hpre.
  - simpl. destruct n as [|a n]; [done|]. simpl in *.
    apply orb_false_iff in Hn as [Ha Hn]. by rewrite Hn, Ha.
  - destruct Hpre as [?|Hend]; [done|].
    change (String c pre +:+ n) with (String c (pre +:+ n)).
    destruct pre as [|b pre'].
    + simpl in Hend. simpl. rewrite Hn, Hend.
      apply Ascii.eqb_eq in Hend. by subst.
    + change (endswith_char (String b pre') "/" = true) in Hend.
      cbn [path_cut]. rewrite contains_app, (endswith_char_contains _ _ Hend).
      rewrite orb_true_l. by rewrite (IH (or_intror Hend)).
Qed.

Lemma os_path_split_prefix p : ∃ rest, p = fst (os_path_split p) +:+ rest.
Proof.
  unfold os_path_split. pose proof (path_cut_app p) as Hp.
  destruct (path_cut p) as [h t]. simpl in *.
  destruct (String.eqb (rstrip_char "/" h) ""); simpl; [by exists t|].
  destruct (rstrip_char_prefix "/" h) as [rest Hrest].
  exists (rest +:+ t). rewrite <-PyFacts.app_string_assoc, <-Hrest. done.
Qed.

Lemma os_path_split_dir pre n :
  contains "/" n = false → pre = "" ∨ endswith_char pre "/" = true →
  os_path_split (pre +:+ n)
  = (if String.eqb (rstrip_char "/" pre) "" then pre else rstrip_char "/" pre, n).
Proof. intros Hn Hpre. unfold os_path_split. by rewrite path_cut_dir. Qed.

Lemma entry_prefix p : ∃ rest, p = entry p +:+ rest.
Proof.
  unfold entry. destruct (all_slashes p).
  - exists "". by rewrite app_string_nil_r.
  - apply rstrip_char_prefix.
Qed.

Lemma entry_id p : endswith_char p "/" = false → entry p = p.
Proof. intros H. unfold entry. rewrite rstrip_char_id by done. by destruct (all_slashes p). Qed.

Lemma prefix_trans (a b c r1 r2 : string) : b = a +:+ r1 → c = b +:+ r2 → ∃ r, c = a +:+ r.
Proof. intros -> ->. exists (r1 +:+ r2). apply PyFacts.app_string_assoc. Qed.

Lemma append_ne_self (s t : string) : t ≠ "" → s +:+ t ≠ s.
Proof.
  intros Ht H. apply (f_equal String.length) in H.
  rewrite PyFacts.app_string_length in H. destruct t; [done|simpl in H; lia].
Qed.

End PathFacts.

(** ** Facts on the file system *)

Module FsFacts.
Import ExtractModel PathFacts.

Implicit Types (f : gmap string node) (p q : string).

Lemma grows_refl p f : grows_towards p f f.
Proof. intros q. by left. Qed.

Lemma grows_trans p f1 f2 f3 :
  grows_towards p f1 f2 → grows_towards p f2 f3 → grows_towards p f1 f3.
Proof.
  intros H12 H23 q. destruct (H12 q) as [E1|(N1 & D1 & R1)], (H23 q) as [E2|(N2 & D2 & R2)].
  - left. congruence.
  - right. rewrite <-E1. done.
  - right. rewrite E2. done.
  - congruence.
Qed.

Lemma grows_prefix q p f f' :
  (∃ rest, p = q +:+ rest) → grows_towards q f f' → grows_towards p f f'.
Proof.
  intros [rest ->] H x. destruct (H x) as [?|(? & ? & r & ->)]; [by left|right].
  split_and!; [done..|]. exists (r +:+ rest). apply PyFacts.app_string_assoc.
Qed.

Lemma mkdir_grows p f : grows_towards p f (snd (mkdir p f)).
Proof.
  unfold mkdir. destruct (contains "000" p); [apply grows_refl|].
  destruct (lookup_error f p); [apply grows_refl|].
  destruct (always_there (entry p) || bool_decide (is_Some (f !! entry p))) eqn:H;
    [apply grows_refl|].
  simpl. intros q. apply orb_false_iff in H as [_ H].
  apply bool_decide_eq_false in H. rewrite <-eq_None_not_Some in H.
  destruct (decide (entry p = q)) as [<-|Hne].
  - right. rewrite lookup_insert_eq. split_and!; [done..|]. apply entry_prefix.
  - left. by rewrite lookup_insert_ne.
Qed.

Lemma except_FileExistsError_snd (m : FS unit) f :
  snd (except_FileExistsError m f) = snd (m f).
Proof.
  unfold except_FileExistsError. by destruct (m f) as [[[]|[[] ?]] ?].
Qed.

(** The heads that [os.makedirs] takes are prefixes of the name. *)
Lemma makedirs_head name head tail :
  (if String.eqb (snd (os_path_split name)) ""
   then os_path_split (fst (os_path_split name))
   else os_path_split name) = (head, tail) →
  ∃ rest, name = head +:+ rest.
Proof.
  destruct (os_path_split_prefix name) as [r1 H1].
  destruct (String.eqb _ ""); intros H.
  - destruct (os_path_split_prefix (fst (os_path_split name))) as [r2 H2].
    rewrite H in H2. simpl in H2. by eapply prefix_trans.
  - rewrite H in H1. by eexists.
Qed.

Lemma makedirs_from_grows n name f :
  grows_towards name f (snd (makedirs_from n name f)).
Proof.
  revert name f. induction n as [|n IH]; intros name f.
  - simpl. destruct (os_path_split name) as [h t].
    destruct (if String.eqb t "" then os_path_split h else (h, t)).
    apply mkdir_grows.
  - cbn [makedirs_from].
    pose proof (makedirs_head name) as Hhead.
    destruct (os_path_split name) as [h t]. simpl in Hhead.
    destruct (if String.eqb t "" then os_path_split h else (h, t)) as [head tail].
    specialize (Hhead head tail eq_refl).
    destruct (negb (String.eqb head "") && negb (String.eqb tail ""));
      [|apply mkdir_grows].
    unfold mbind, FS_bind, path_exists.
    destruct (negb (bool_decide (is_Some (stat f head)))); [|apply mkdir_grows].
    pose proof (IH head f) as Hrec.
    rewrite <-except_FileExistsError_snd in Hrec.
    destruct (except_FileExistsError (makedirs_from n head) f) as [[[]|e] f1];
      simpl in *.
    + eapply grows_trans; [by eapply grows_prefix|].
      destruct (String.eqb tail "."); [apply grows_refl|apply mkdir_grows].
    + by eapply grows_prefix.
Qed.

Lemma make_output_dir_grows out f :
  grows_towards out f (snd (make_output_dir out f)).
Proof.
  unfold make_output_dir, mbind, FS_bind, path_exists.
  destruct (negb _); [apply makedirs_from_grows|apply grows_refl].
Qed.

(** *** The recursion of [os.makedirs] *)

(** The head of a path that has a tail is shorter than the path. *)
Lemma os_path_split_shorter p :
  snd (os_path_split p) ≠ "" →
  (String.length (fst (os_path_split p)) < String.length p)%nat.
Proof.
  unfold os_path_split. pose proof (path_cut_app p) as Hp.
  destruct (path_cut p) as [h t]. simpl in *. intros Ht.
  assert (String.length h < String.length p)%nat as Hh.
  { rewrite <-Hp, PyFacts.app_string_length. destruct t; [done|simpl; lia]. }
  destruct (String.eqb (rstrip_char "/" h) ""); simpl; [done|].
  destruct (rstrip_char_prefix "/" h) as [r Hr].
  apply (f_equal String.length) in Hr. rewrite PyFacts.app_string_length in Hr. lia.
Qed.

Lemma os_path_split_le p :
  (String.length (fst (os_path_split p)) ≤ String.length p)%nat.
Proof.
  destruct (os_path_split_prefix p) as [r Hr].
  apply (f_equal String.length) in Hr. rewrite PyFacts.app_string_length in Hr. lia.
Qed.

(** [os.makedirs] calls itself on a shorter name: a depth of the length of
    the name is never used up, and a larger one changes nothing. *)
Lemma makedirs_from_depth d d' name :
  (String.length name ≤ d)%nat → (String.length name ≤ d')%nat →
  makedirs_from d name = makedirs_from d' name.
Proof.
  revert d' name. induction d as [|d IH]; intros d' name Hd Hd'.
  - assert (name = "") as -> by (destruct name; [done|simpl in Hd; lia]).
    by destruct d'.
  - destruct d' as [|d'].
    { assert (name = "") as -> by (destruct name; [done|simpl in Hd'; lia]). done. }
    cbn [makedirs_from].
    pose proof (os_path_split_shorter name) as H1.
    pose proof (os_path_split_le name) as H1'.
    destruct (os_path_split name) as [h t]. simpl in H1, H1'.
    destruct (String.eqb_spec t "") as [->|Ht].
    + pose proof (os_path_split_shorter h) as H2.
      destruct (os_path_split h) as [h' t']. simpl in H2.
      destruct (String.eqb_spec t' "") as [->|Ht']; [by rewrite andb_false_r|].
      rewrite (IH d' h') by (specialize (H2 Ht'); lia). done.
    + rewrite (IH d' h) by (specialize (H1 Ht); lia). done.
Qed.

Lemma makedirs_from_enough d name :
  (String.length name ≤ d)%nat → makedirs_from d name = makedirs name.
Proof. intros Hd. by apply makedirs_from_depth. Qed.

(** *** What opening a file looks at *)

Lemma head_node_agree f f' h : f' !! h = f !! h → head_node f' h = head_node f h.
Proof. intros H. unfold head_node. by rewrite H. Qed.

Lemma lookup_error_agree f f' p :
  f' !! fst (os_path_split (entry p)) = f !! fst (os_path_split (entry p)) →
  lookup_error f' p = lookup_error f p.
Proof.
  intros H. unfold lookup_error. destruct (os_path_split (entry p)) as [h t].
  by rewrite (head_node_agree f f' h H).
Qed.

Lemma open_error_agree f f' p :
  f' !! p = f !! p → f' !! entry p = f !! entry p →
  f' !! fst (os_path_split (entry p)) = f !! fst (os_path_split (entry p)) →
  open_error f' p = open_error f p.
Proof.
  intros Hp He Hh. unfold open_error.
  by rewrite (lookup_error_agree f f' p Hh), Hp, He.
Qed.

(** A directory is never opened for writing. *)
Lemma open_error_dir f p : f !! p = Some Dir → is_Some (open_error f p).
Proof.
  intros Hp. unfold open_error. destruct (contains "000" p); [by eexists|].
  destruct (lookup_error f p); [by eexists|].
  destruct (always_there p); [by eexists|].
  destruct (String.eqb (entry p) p); [rewrite Hp; by eexists|].
  by destruct (f !! entry p) as [[|?]|].
Qed.

End FsFacts.

(** ** Making the output directory *)

Module DirFacts.
Import ExtractModel PathFacts FsFacts.

#[local] Arguments String.append !s1 s2 : simpl nomatch.

Implicit Types (f : gmap string node) (p q d n : string).

Lemma contains_endswith c s : contains c s = false → endswith_char s c = false.
Proof.
  intros H. destruct (endswith_char s c) eqn:E; [|done].
  apply endswith_char_contains in E. congruence.
Qed.













End DirFacts.

(** ** Facts on the extractor *)

Module ExtractFacts.
Import Extract ExtractModel PathFacts FsFacts DirFacts.

#[local] Arguments String.append !s1 s2 : simpl nomatch.

Lemma texture_name_inj i j e1 e2 : texture_name i e1 = texture_name j e2 → i = j.
Proof.
  unfold texture_name. intros H%PyFacts.app_string_inv_l.
  apply PyFacts.digits_dot_inj in H; auto using PyFacts.pretty_nat_digits.
  by apply (inj pretty) in H.
Qed.

Lemma digits_no_slash s : digits s = true → contains "/" s = false.
Proof.
  induction s as [|c s IH]; simpl; [done|].
  intros [Hc Hs]%andb_true_iff. rewrite IH by done.
  destruct (Ascii.eqb_spec c "/") as [->|]; done.
Qed.

Lemma texture_name_no_slash i ext :
  contains "/" ext = false → contains "/" (texture_name i ext) = false.
Proof.
  intros Hext. unfold texture_name. rewrite !contains_app, Hext.
  by rewrite (digits_no_slash _ (PyFacts.pretty_nat_digits i)).
Qed.

(** The texture paths of an output directory: a common part, which is
    empty or ends with [/], and then the name of the texture. *)
Lemma path_join_texture out :
  ∃ pre, (∀ j e, path_join out (texture_name j e) = pre +:+ texture_name j e)
         ∧ (pre = "" ∨ endswith_char pre "/" = true)
         ∧ ∃ rest, pre = out +:+ rest.
Proof.
  unfold path_join. simpl.
  destruct (String.eqb_spec out "") as [->|Hne]; simpl.
  - exists "". split_and!; [done|by left|by exists ""].
  - destruct (endswith_char out "/") eqn:Hend.
    + exists out. split_and!; [done|by right|]. exists "". by rewrite app_string_nil_r.
    + exists (out +:+ "/"). split_and!.
      * intros. by rewrite PyFacts.app_string_assoc.
      * right. by rewrite endswith_char_app.
      * by eexists.
Qed.

(** A texture path determines the index of its descriptor. *)
Lemma texture_path_inj out i j e1 e2 :
  path_join out (texture_name i e1) = path_join out (texture_name j e2) → i = j.
Proof.
  destruct (path_join_texture out) as (pre & Hpre & _).
  rewrite !Hpre. intros H%PyFacts.app_string_inv_l. by eapply texture_name_inj.
Qed.

Lemma texture_name_ne i e : texture_name i e ≠ "".
Proof. done. Qed.

(** A texture path is longer than the output directory and than every
    path that the output directory starts with. *)
Lemma texture_path_ne_prefix out q i e :
  (∃ rest, out = q +:+ rest) → path_join out (texture_name i e) ≠ q.
Proof.
  intros [r1 ->]. destruct (path_join_texture (q +:+ r1)) as (pre & Hpre & _ & r2 & ->).
  rewrite Hpre, !PyFacts.app_string_assoc. apply append_ne_self.
  intros H. apply (f_equal String.length) in H.
  rewrite !PyFacts.app_string_length in H. simpl in H. lia.
Qed.

Lemma texture_path_ne_dir out i e : path_join out (texture_name i e) ≠ out.
Proof. apply texture_path_ne_prefix. exists "". by rewrite app_string_nil_r. Qed.

(** A texture path is spelled without a slash at its end, and its head is
    no texture path. *)
Lemma texture_path_entry out i ext :
  contains "/" ext = false →
  entry (path_join out (texture_name i ext)) = path_join out (texture_name i ext).
Proof.
  intros Hext. apply entry_id.
  destruct (path_join_texture out) as (pre & Hpre & _). rewrite Hpre.
  rewrite endswith_char_app by done.
  apply contains_endswith. by apply texture_name_no_slash.
Qed.

Lemma texture_path_head out i ext j e :
  contains "/" ext = false →
  fst (os_path_split (path_join out (texture_name i ext)))
  ≠ path_join out (texture_name j e).
Proof.
  intros Hext. destruct (path_join_texture out) as (pre & Hpre & Hend & _).
  rewrite !Hpre. rewrite os_path_split_dir by (by try apply texture_name_no_slash).
  simpl. intros Heq.
  assert (∃ r, pre = (if String.eqb (rstrip_char "/" pre) "" then pre
                      else rstrip_char "/" pre) +:+ r) as [r Hr].
  { destruct (String.eqb _ ""); [exists ""; by rewrite app_string_nil_r|].
    apply rstrip_char_prefix. }
  rewrite Heq in Hr. rewrite PyFacts.app_string_assoc in Hr.
  symmetry in Hr. apply append_ne_self in Hr; [done|].
  intros H. apply (f_equal String.length) in H.
  rewrite !PyFacts.app_string_length in H. simpl in H. lia.
Qed.

(** *** The header of a data URI *)

Lemma split_nonempty c s : split c s ≠ [].
Proof. destruct s as [|a s]; simpl; [done|]. by repeat case_match. Qed.

Lemma split_no_sep c s : contains c s = false → split c s = [s].
Proof.
  induction s as [|a s IH]; simpl; [done|].
  intros [Ha Hs]%orb_false_iff. by rewrite Ha, IH.
Qed.

Lemma split_sep c s : contains c s = true → ∃ h x t, split c s = h :: x :: t.
Proof.
  induction s as [|a s IH]; simpl; [done|].
  destruct (Ascii.eqb a c); simpl.
  - intros _. destruct (split c s) as [|x t] eqn:Hs; [by destruct (split_nonempty c s)|].
    by eexists _, _, _.
  - intros (h & x & t & ->)%IH. by eexists _, _, _.
Qed.

Lemma last_split c s : last (split c s) = Some (after_last c s).
Proof.
  induction s as [|a s IH]; simpl; [done|].
  destruct (contains c s) eqn:Hc.
  - destruct (split_sep c s Hc) as (h & x & t & Hs). rewrite Hs in *.
    by destruct (Ascii.eqb a c).
  - rewrite (split_no_sep c s Hc). by destruct (Ascii.eqb a c).
Qed.

Lemma head_split c s : ∃ t, split c s = before_first c s :: t.
Proof.
  induction s as [|a s [t IH]]; simpl; [by eexists|].
  destruct (Ascii.eqb a c); [by eexists|]. rewrite IH. by eexists.
Qed.

(** Line 34 computes the subtype as the specification words it, on every
    header. *)
Lemma extension_of_header_subtype header :
  extension_of_header header = Ok (spec_subtype header).
Proof.
  unfold extension_of_header, spec_subtype.
  rewrite (PyFacts.getitem_last _ _ (last_split "/" header)). simpl.
  by destruct (head_split ";" (after_last "/" header)) as [t ->].
Qed.

Lemma before_first_no c d s : contains d s = false → contains d (before_first c s) = false.
Proof.
  induction s as [|a s IH]; simpl; [done|].
  intros [Ha Hs]%orb_false_iff. destruct (Ascii.eqb a c); simpl; [done|].
  by rewrite Ha, IH.
Qed.

Lemma after_last_no_sep c s : contains c (after_last c s) = false.
Proof.
  induction s as [|a s IH]; simpl; [done|].
  destruct (contains c s) eqn:Hs; [done|].
  destruct (Ascii.eqb a c) eqn:Ha; [done|]. simpl. by rewrite Ha, Hs.
Qed.

Lemma spec_subtype_no_slash header : contains "/" (spec_subtype header) = false.
Proof. apply before_first_no, after_last_no_sep. Qed.

Lemma extension_of_no_slash m : contains "/" (extension_of m) = false.
Proof. unfold extension_of. by repeat case_match. Qed.

Lemma split1_first c h t :
  contains c h = false → split1 c (h +:+ String c t) = [h; t].
Proof.
  induction h as [|a h IH]; simpl.
  - intros _. by rewrite Ascii.eqb_refl.
  - intros [Ha Hh]%orb_false_iff. by rewrite Ha, IH.
Qed.

Lemma startswith_app p s t : startswith s p = true → startswith (s +:+ t) p = true.
Proof.
  unfold startswith. revert s. induction p as [|c p IH]; intros [|a s]; simpl; try done.
  - by destruct t.
  - destruct (ascii_dec c a); [apply IH|done].
Qed.

(** *** Writes on the file system *)

Lemma apply_write_lookup q data f p :
  apply_write q data f !! p =
  if decide (q = p) then
    match open_error f q with None => Some (File data) | Some _ => f !! p end
  else f !! p.
Proof.
  unfold apply_write. destruct (decide (q = p)) as [->|Hne].
  - destruct (open_error f p); by rewrite ?lookup_insert_eq.
  - destruct (open_error f q); by rewrite ?lookup_insert_ne.
Qed.

Lemma fs_step_lookup r f p :
  fs_step r f !! p =
  match r with
  | Ok (Write q data _) =>
      if decide (q = p) then
        match open_error f q with None => Some (File data) | Some _ => f !! p end
      else f !! p
  | _ => f !! p
  end.
Proof. destruct r as [[q data line|line|]|e]; simpl; try done. apply apply_write_lookup. Qed.

Lemma fs_turn i r w : fs (turn i r w) = fs_step r (fs w).
Proof.
  destruct r as [[p data line|line|]|e]; simpl; try done.
  unfold apply_write. by destruct (open_error (fs w) p).
Qed.

Lemma indexed_cons out i r rs :
  indexed out i (r :: rs) → indexed out (S i) rs.
Proof.
  intros H j p data line Hj. destruct (H (S j) p data line Hj) as (ext & -> & ?).
  exists ext. split; [|done]. by replace (S i + j) with (i + S j) by lia.
Qed.

Lemma last_write_index rs p data :
  last_write rs p = Some data →
  ∃ j line, rs !! j = Some (Ok (Write p data line)).
Proof.
  induction rs as [|r rs IH]; simpl; [done|].
  destruct (last_write rs p) as [d|] eqn:Hl.
  - intros [= ->]. destruct (IH eq_refl) as (j & line & Hj). by exists (S j), line.
  - destruct r as [[q d line|line|]|e]; try done.
    case_decide; [|done]. intros [= ->]. subst q. by exists 0, line.
Qed.

Lemma last_write_some rs j p data line :
  rs !! j = Some (Ok (Write p data line)) → is_Some (last_write rs p).
Proof.
  revert j. induction rs as [|r rs IH]; intros j Hj; [done|]. simpl.
  destruct (last_write rs p) as [d|] eqn:Hl; [done|].
  destruct j as [|j]; simpl in Hj.
  - injection Hj as ->. by rewrite decide_True.
  - destruct (IH j Hj) as [d Hd]. congruence.
Qed.

(** Among indexed results, the one at position [j] is the only one that
    writes its path. *)
Lemma last_write_at out i rs j p data line :
  indexed out i rs →
  rs !! j = Some (Ok (Write p data line)) →
  last_write rs p = Some data.
Proof.
  intros Hrs Hj.
  destruct (last_write_some rs j p data line Hj) as [d Hd].
  rewrite Hd. f_equal.
  destruct (last_write_index _ _ _ Hd) as (k & line' & Hk).
  destruct (Hrs _ _ _ _ Hj) as (e1 & H1 & _).
  destruct (Hrs _ _ _ _ Hk) as (e2 & H2 & _).
  assert (i + j = i + k) as Heq by (apply (texture_path_inj out _ _ e1 e2); congruence).
  assert (j = k) as <- by lia. congruence.
Qed.

Lemma last_write_none out i rs p :
  indexed out i rs →
  (∀ (j : nat) ext,
     p ≠ path_join out (texture_name j ext) ∨ (j < i)%nat ∨ (i + length rs ≤ j)%nat) →
  last_write rs p = None.
Proof.
  intros Hrs Hp. destruct (last_write rs p) as [d|] eqn:Hd; [|done].
  destruct (last_write_index _ _ _ Hd) as (k & line' & Hk).
  destruct (Hrs _ _ _ _ Hk) as (e & Hpath & _).
  apply lookup_lt_Some in Hk.
  destruct (Hp (i + k) e) as [?|[?|?]]; [done|lia..].
Qed.

(** What the turns leave at a path: the data of its write, when the file
    could be opened, and what was there otherwise. *)
Lemma fs_steps_lookup out i rs f p :
  indexed out i rs →
  fs_steps rs f !! p =
  match last_write rs p with
  | Some data =>
      match open_error f p with None => Some (File data) | Some _ => f !! p end
  | None => f !! p
  end.
Proof.
  revert i f. induction rs as [|r rs IH]; intros i f Hrs; [done|].
  change (fs_steps (r :: rs) f) with (fs_steps rs (fs_step r f)).
  rewrite (IH (S i)) by by eapply indexed_cons. simpl.
  destruct (last_write rs p) as [d|] eqn:Hl.
  - destruct (last_write_index _ _ _ Hl) as (k & line & Hk).
    destruct (Hrs (S k) _ _ _ Hk) as (ext & Hp & Hext).
    assert (∀ x, (∀ j e, x ≠ path_join out (texture_name j e) ∨ j ≠ i) →
                 fs_step r f !! x = f !! x) as Hsame.
    { intros x Hx. rewrite fs_step_lookup.
      destruct r as [[q dq lq|?|]|?]; try done. case_decide; [|done]. subst x.
      destruct (Hrs 0 _ _ _ eq_refl) as (e & Hq & _).
      destruct (Hx (i + 0) e) as [?|?]; [done|lia]. }
    assert (fs_step r f !! p = f !! p) as Hpp.
    { apply Hsame. intros j e. destruct (decide (j = i)) as [->|]; [left|by right].
      rewrite Hp. intros Heq%texture_path_inj. lia. }
    rewrite (open_error_agree f (fs_step r f) p); [by rewrite Hpp|done|..].
    + rewrite Hp at 1 2. rewrite texture_path_entry by done. by rewrite <-Hp.
    + apply Hsame. intros j e. left. rewrite Hp, texture_path_entry by done.
      by apply texture_path_head.
  - rewrite fs_step_lookup. destruct r as [[q dq lq|?|]|?]; try done.
    destruct (decide (q = p)) as [->|]; done.
Qed.

Lemma fs_steps_app rs1 rs2 f : fs_steps (rs1 ++ rs2) f = fs_steps rs2 (fs_steps rs1 f).
Proof. apply foldl_app. Qed.

(** The turns remove nothing: a directory stays a directory, and a regular
    file stays a regular file. *)
Lemma fs_steps_keep out i rs f p :
  indexed out i rs →
  match f !! p with
  | Some Dir => fs_steps rs f !! p = Some Dir
  | Some (File _) => ∃ content, fs_steps rs f !! p = Some (File content)
  | None => True
  end.
Proof.
  intros Hrs. rewrite (fs_steps_lookup out i) by done.
  destruct (f !! p) as [[|c]|] eqn:Hp; [| |done].
  - destruct (last_write rs p); [|done].
    destruct (open_error_dir f p Hp) as [e ->]. done.
  - destruct (last_write rs p); [|by eexists].
    destruct (open_error f p); by eexists.
Qed.

(** *** One turn of the loop *)

Lemma stdout_turn i r w line : line ∈ stdout w → line ∈ stdout (turn i r w).
Proof.
  intros Hin. destruct r as [[p data l|l|]|e]; simpl; [|set_solver..].
  destruct (open_error (fs w) p); set_solver.
Qed.

Lemma stdout_turn_write i p data line w :
  open_error (fs w) p = None → line ∈ stdout (turn i (Ok (Write p data line)) w).
Proof. intros Hp. simpl. rewrite Hp. simpl. set_solver. Qed.

Section Turns.

Context (b64decode : string → result bytes).

Local Abbreviation resolve := (ExtractModel.resolve b64decode).
Local Abbreviation process_image := (Extract.process_image b64decode).
Local Abbreviation loop_body := (Extract.loop_body b64decode).
Local Abbreviation turns := (ExtractModel.turns b64decode).
Local Abbreviation trace := (ExtractModel.trace b64decode).

(** [process_image] performs what the descriptor resolves to. *)
Lemma process_image_resolve gltf out i image w :
  process_image gltf out i image w =
  match resolve gltf out i image (fs w) with
  | Ok a => perform a w
  | Raise e => (Raise e, w)
  end.
Proof.
  unfold Extract.process_image, ExtractModel.resolve.
  destruct (truthy_str (Image.uri image)) as [u|].
  - destruct (startswith u "data:"); [|done].
    unfold mbind, M_bind, lift.
    destruct (unpack2 _) as [[content_type b64data]|e]; simpl; [|done].
    destruct (b64decode b64data); simpl; [|done].
    by destruct (extension_of_header content_type).
  - destruct (Image.bufferView image) as [| |bv]; [done..|].
    unfold mbind, M_bind, lift, read.
    destruct (buffer_view_of gltf bv) as [buffer_view|]; simpl; [|done].
    destruct (buffer_of gltf buffer_view) as [buffer|]; simpl; [|done].
    destruct (buffer_data_of gltf buffer (fs w)) as [[|data|]|]; simpl; [done| | |done].
    + destruct (getattr _ _ (BufferView.byteLength buffer_view)) as [len|]; simpl; [|done].
      by destruct (add _ len).
    + destruct (getattr _ _ (BufferView.byteLength buffer_view)) as [len|]; simpl; [|done].
      by destruct (add _ len).
Qed.

(** One turn of the loop never raises, and leaves the world [turn] gives. *)
Lemma loop_body_turn gltf out i image w :
  loop_body gltf out i image w = (Ok (), turn i (resolve gltf out i image (fs w)) w).
Proof.
  unfold Extract.loop_body, try_except. rewrite process_image_resolve.
  destruct (resolve gltf out i image (fs w)) as [[p data line|line|]|e]; simpl; try done.
  unfold mbind, M_bind, write_file, on_fs, open_write.
  by destruct (open_error (fs w) p).
Qed.

Lemma loop_turns gltf out i l w :
  for_enumerate (loop_body gltf out) i l w = (Ok (), turns gltf out i l w).
Proof.
  revert i w. induction l as [|image l IH]; intros i w; simpl; [done|].
  unfold mbind, M_bind. by rewrite loop_body_turn, IH.
Qed.

(** What a descriptor writes has a name of its own position, without [/]. *)
Lemma resolve_write_name gltf out i image f p data line :
  resolve gltf out i image f = Ok (Write p data line) →
  ∃ ext, p = path_join out (texture_name i ext) ∧ contains "/" ext = false.
Proof.
  unfold ExtractModel.resolve.
  destruct (truthy_str (Image.uri image)) as [u|].
  - destruct (startswith u "data:"); [|done].
    destruct (unpack2 _) as [[content_type b64data]|]; simpl; [|done].
    destruct (b64decode b64data); simpl; [|done].
    rewrite extension_of_header_subtype. simpl.
    intros [= <- _ _]. eexists. split; [done|]. apply spec_subtype_no_slash.
  - destruct (Image.bufferView image) as [| |bv]; [done..|].
    destruct (buffer_view_of gltf bv) as [buffer_view|]; simpl; [|done].
    destruct (buffer_of gltf buffer_view) as [buffer|]; simpl; [|done].
    destruct (buffer_data_of gltf buffer f) as [bdata|]; simpl; [|done].
    destruct bdata as [|b|]; [done| |].
    + destruct (getattr _ _ (BufferView.byteLength buffer_view)) as [len|]; simpl; [|done].
      destruct (add _ len); simpl; [|done].
      intros [= <- _ _]. eexists. split; [done|]. apply extension_of_no_slash.
    + destruct (getattr _ _ (BufferView.byteLength buffer_view)) as [len|]; simpl; [|done].
      by destruct (add _ len).
Qed.

Lemma resolve_write_path gltf out i image f p data line :
  resolve gltf out i image f = Ok (Write p data line) →
  ∃ ext, p = path_join out (texture_name i ext).
Proof. intros (ext & ? & _)%resolve_write_name. by exists ext. Qed.

(** *** The turns of the loop *)

Lemma fs_turns gltf out i l w :
  fs (turns gltf out i l w) = fs_steps (trace gltf out i l w) (fs w).
Proof.
  revert i w. induction l as [|image l IH]; intros i w; simpl; [done|].
  rewrite IH, fs_turn. done.
Qed.

Lemma trace_length gltf out i l w : length (trace gltf out i l w) = length l.
Proof. revert i w. induction l as [|image l IH]; intros i w; simpl; [done|]. by rewrite IH. Qed.

Lemma trace_indexed gltf out i l w : indexed out i (trace gltf out i l w).
Proof.
  revert i w. induction l as [|image l IH]; intros i w j p data line; simpl; [done|].
  destruct j as [|j]; simpl.
  - intros [= Hr]. rewrite Nat.add_0_r. by eapply resolve_write_name.
  - intros Hj. replace (i + S j) with (S i + j) by lia. by eapply IH.
Qed.

Lemma turns_app gltf out i l1 l2 w :
  turns gltf out i (l1 ++ l2) w
  = turns gltf out (i + length l1) l2 (turns gltf out i l1 w).
Proof.
  revert i w. induction l1 as [|image l1 IH]; intros i w; simpl.
  - by rewrite Nat.add_0_r.
  - rewrite IH. by replace (S i + length l1) with (i + S (length l1)) by lia.
Qed.

Lemma turns_middle gltf out l j image w :
  l !! j = Some image →
  turns gltf out 0 l w
  = turns gltf out (S j) (drop (S j) l)
      (turn j (resolve gltf out j image (fs (turns gltf out 0 (take j l) w)))
         (turns gltf out 0 (take j l) w)).
Proof.
  intros Hj. rewrite <-(take_drop_middle l j image Hj) at 1.
  rewrite turns_app. simpl. rewrite length_take_le; [done|].
  apply lookup_lt_Some in Hj. lia.
Qed.

Lemma trace_lookup gltf out i l w j image :
  l !! j = Some image →
  trace gltf out i l w !! j
  = Some (resolve gltf out (i + j) image (fs (turns gltf out i (take j l) w))).
Proof.
  revert i w j. induction l as [|x l IH]; intros i w j Hj; [done|].
  destruct j as [|j]; simpl in *.
  - injection Hj as ->. by rewrite Nat.add_0_r.
  - rewrite (IH _ _ _ Hj). by replace (i + S j) with (S i + j) by lia.
Qed.

(** The turns before descriptor [j] leave its texture paths, and what
    opening them looks at, as they were. *)
Lemma fs_turns_before gltf out l j ext w :
  contains "/" ext = false →
  let p := path_join out (texture_name j ext) in
  let wj := turns gltf out 0 (take j l) w in
  fs wj !! p = fs w !! p ∧ open_error (fs wj) p = open_error (fs w) p.
Proof.
  intros Hext p wj.
  assert (∀ x, (∀ k e, x ≠ path_join out (texture_name k e) ∨ (j ≤ k)%nat) →
               fs wj !! x = fs w !! x) as Hsame.
  { intros x Hx. unfold wj. rewrite fs_turns.
    rewrite (fs_steps_lookup out 0) by apply trace_indexed.
    rewrite (last_write_none out 0); [done|apply trace_indexed|].
    intros k e. rewrite trace_length, length_take.
    destruct (Hx k e) as [?|?]; [by left|right; right; lia]. }
  assert (fs wj !! p = fs w !! p) as Hp.
  { apply Hsame. intros k e. destruct (decide (j ≤ k)%nat); [by right|left].
    intros Heq%texture_path_inj. lia. }
  split; [done|]. apply open_error_agree; [done|..].
  - unfold p. rewrite texture_path_entry by done. done.
  - apply Hsame. intros k e. left. unfold p. rewrite texture_path_entry by done.
    by apply texture_path_head.
Qed.

Lemma stdout_turns gltf out i l w line :
  line ∈ stdout w → line ∈ stdout (turns gltf out i l w).
Proof.
  revert i w. induction l as [|image l IH]; intros i w Hin; simpl; [done|].
  by apply IH, stdout_turn.
Qed.

Lemma stdout_turn_shape i r w :
  ∃ body, stdout (turn i r w) = stdout w ++ body ∧ (length body ≤ 1)%nat.
Proof.
  destruct r as [[p data line|line|]|e]; simpl.
  - destruct (open_error (fs w) p); by eexists [_].
  - by eexists [_].
  - exists []. rewrite app_nil_r. split; [done|simpl; lia].
  - by eexists [_].
Qed.

Lemma stdout_turns_shape gltf out i l w :
  ∃ body,
    stdout (turns gltf out i l w) = stdout w ++ body
    ∧ (length body ≤ length l)%nat.
Proof.
  revert i w. induction l as [|image l IH]; intros i w; simpl.
  - exists []. by rewrite app_nil_r.
  - destruct (stdout_turn_shape i (resolve gltf out i image (fs w)) w)
      as (b1 & Hb1 & Hl1).
    destruct (IH (S i) (turn i (resolve gltf out i image (fs w)) w))
      as (b2 & Hb2 & Hl2).
    exists (b1 ++ b2). rewrite Hb2, Hb1, <-app_assoc. split; [done|].
    rewrite length_app. lia.
Qed.

End Turns.

(** *** A whole run *)

Section Runs.

Context (b64decode : string → result bytes).
Context (GLTF2_load : gmap string node → string → result GLTF2.t).

Local Abbreviation final := (ExtractModel.final b64decode).
Local Abbreviation extract := (Extract.extract_textures_from_glb b64decode GLTF2_load).

(** A run on a container that loads: it ends on line 12 when
    [os.makedirs] raises, and goes through the descriptors otherwise. *)
Lemma extract_run glb out gltf w :
  GLTF2_load (fs w) glb = Ok gltf →
  extract glb out w =
  match fst (make_output_dir out (fs w)) with
  | Ok _ => (Ok (), final gltf glb out w)
  | Raise e =>
      (Raise e,
       World (snd (make_output_dir out (fs w)))
         (stdout w ++ ["Loading GLB file: " +:+ glb]))
  end.
Proof.
  intros Hload. unfold Extract.extract_textures_from_glb, ExtractModel.final.
  unfold make_output_dir, os_path_exists, os_makedirs, on_fs, path_exists.
  unfold mbind, M_bind, FS_bind, print, read, mret, M_ret, FS_ret, say. simpl.
  rewrite Hload.
  destruct (negb _); simpl.
  - destruct (makedirs out (fs w)) as [[[]|e] f1]; simpl; [|done].
    destruct (truthy_list (GLTF2.buffers gltf)); [|done].
    destruct (truthy_list (GLTF2.images gltf)) as [imgs|]; [|done].
    by rewrite loop_turns.
  - destruct (truthy_list (GLTF2.buffers gltf)); [|done].
    destruct (truthy_list (GLTF2.images gltf)) as [imgs|]; [|done].
    by rewrite loop_turns.
Qed.

Lemma extract_not_loaded glb out e w :
  GLTF2_load (fs w) glb = Raise e →
  extract glb out w = (Raise e, say ("Loading GLB file: " +:+ glb) w).
Proof.
  intros Hload. unfold Extract.extract_textures_from_glb.
  unfold mbind, M_bind, print, read. simpl. by rewrite Hload.
Qed.

(** The file system after the descriptors, key by key. *)
Lemma fs_final gltf glb out w :
  fs (final gltf glb out w) =
  match truthy_list (GLTF2.buffers gltf), truthy_list (GLTF2.images gltf) with
  | Some _, Some imgs =>
      fs_steps
        (trace b64decode gltf out 0 imgs
           (World (snd (make_output_dir out (fs w)))
              (stdout w ++ ["Loading GLB file: " +:+ glb;
                            "Found " +:+ pretty (length imgs) +:+ " images in the GLB file."])))
        (snd (make_output_dir out (fs w)))
  | _, _ => snd (make_output_dir out (fs w))
  end.
Proof.
  unfold ExtractModel.final.
  destruct (truthy_list (GLTF2.buffers gltf)); [|done].
  destruct (truthy_list (GLTF2.images gltf)); [|done].
  simpl. rewrite fs_turns. unfold say. simpl. by rewrite <-app_assoc.
Qed.

End Runs.

End ExtractFacts.

(** ** Facts on a run of the extractor *)

Module RunFacts.
Import Extract ExtractModel PathFacts FsFacts DirFacts ExtractFacts.

#[local] Arguments String.append !s1 s2 : simpl nomatch.

Implicit Types (f : gmap string node) (p q out : string).

(** *** Lines 11 and 12 *)



Lemma grows_texture out f f' j e :
  grows_towards out f f' →
  f' !! path_join out (texture_name j e) = f !! path_join out (texture_name j e).
Proof.
  intros H. destruct (H (path_join out (texture_name j e))) as [?|(_ & _ & Hpre)]; [done|].
  by destruct (texture_path_ne_prefix out _ j e Hpre).
Qed.

Lemma grows_file out f f' p content :
  grows_towards out f f' → f' !! p = Some (File content) → f !! p = Some (File content).
Proof. intros H Hp. destruct (H p) as [<-|(_ & ? & _)]; [done|congruence]. Qed.

Lemma run_changes_grows out f f' : grows_towards out f f' → run_changes out f f'.
Proof. intros H q. destruct (H q) as [?|(? & ? & _)]; [by left|right; by left]. Qed.

(** *** What the turns leave alone *)





Lemma run_changes_steps out i rs f0 f :
  indexed out i rs → run_changes out f0 f → run_changes out f0 (fs_steps rs f).
Proof.
  intros Hrs H q. rewrite (fs_steps_lookup out i) by done.
  destruct (last_write rs q) as [d|] eqn:Hl; [|apply H].
  destruct (last_write_index _ _ _ Hl) as (k & line & Hk).
  destruct (Hrs _ _ _ _ Hk) as (e & -> & _). right. right. by eexists _, _.
Qed.




(** *** What a descriptor reads *)

Lemma getitem_member {A} (l : list A) i x : getitem (Some l) i = Ok x → x ∈ l.
Proof.
  unfold getitem. destruct i as [i|]; [|done]. cbv zeta.
  destruct (i <? 0)%Z;
    (destruct (_ <? 0)%Z; [done|]; destruct (l !! _) eqn:Hl; [|done];
     intros [= <-]; by eapply list_elem_of_lookup_2).
Qed.

Lemma buffer_of_elem gltf view buffer :
  buffer_of gltf view = Ok buffer →
  ∃ bufs, GLTF2.buffers gltf = Val bufs ∧ buffer ∈ bufs.
Proof.
  unfold buffer_of.
  destruct (GLTF2.buffers gltf) as [| |bufs]; simpl; [done| |].
  - by destruct (getattr _ _ _).
  - destruct (getattr _ _ _) as [bidx|]; simpl; [|done].
    intros H%getitem_member. by exists bufs.
Qed.

Lemma buffer_of_truthy gltf view buffer :
  buffer_of gltf view = Ok buffer → truthy_list (GLTF2.buffers gltf) ≠ None.
Proof.
  intros (bufs & Hb & Hin)%buffer_of_elem. rewrite Hb.
  destruct bufs; [by apply elem_of_nil in Hin|done].
Qed.

Section Turns.

Context (b64decode : string → result bytes).

Local Abbreviation resolve := (ExtractModel.resolve b64decode).
Local Abbreviation turns := (ExtractModel.turns b64decode).
Local Abbreviation trace := (ExtractModel.trace b64decode).


Lemma trace_fs gltf out i l w w' :
  fs w = fs w' → trace gltf out i l w = trace gltf out i l w'.
Proof.
  revert i w w'. induction l as [|image l IH]; intros i w w' Hfs; simpl; [done|].
  rewrite Hfs. f_equal. apply IH. by rewrite !fs_turn, Hfs.
Qed.


End Turns.

(** *** A whole run *)

Section Runs.

Context (b64decode : string → result bytes).
Context (GLTF2_load : gmap string node → string → result GLTF2.t).

Local Abbreviation resolve := (ExtractModel.resolve b64decode).
Local Abbreviation trace := (ExtractModel.trace b64decode).
Local Abbreviation extract := (Extract.extract_textures_from_glb b64decode GLTF2_load).
Local Abbreviation final := (ExtractModel.final b64decode).

(** The file system after a run on a container that loads. *)
Lemma run_fs glb out gltf w :
  GLTF2_load (fs w) glb = Ok gltf →
  let f1 := snd (make_output_dir out (fs w)) in
  fs (exec (extract glb out) w) =
  match fst (make_output_dir out (fs w)),
        truthy_list (GLTF2.buffers gltf), truthy_list (GLTF2.images gltf) with
  | Ok _, Some _, Some imgs => fs_steps (trace gltf out 0 imgs (World f1 [])) f1
  | _, _, _ => f1
  end.
Proof.
  intros Hload f1. unfold exec. rewrite (extract_run _ _ glb out gltf w Hload).
  destruct (fst (make_output_dir out (fs w))); [|done]. simpl.
  rewrite fs_final.
  destruct (truthy_list (GLTF2.buffers gltf)); [|done].
  destruct (truthy_list (GLTF2.images gltf)); [|done].
  f_equal. by apply trace_fs.
Qed.



(** What a run leaves at the path that the descriptor at position [i]
    writes, and on the console. *)
Lemma run_write glb out gltf imgs i image p data line w :
  GLTF2_load (fs w) glb = Ok gltf →
  truthy_list (GLTF2.buffers gltf) ≠ None →
  truthy_list (GLTF2.images gltf) = Some imgs →
  imgs !! i = Some image →
  (∀ f, run_changes out (fs w) f → resolve gltf out i image f = Ok (Write p data line)) →
  fst (make_output_dir out (fs w)) = Ok () →
  open_error (snd (make_output_dir out (fs w))) p = None →
  fs (exec (extract glb out) w) !! p = Some (File data)
  ∧ line ∈ stdout (exec (extract glb out) w).
Proof.
  intros Hload Hbufs Himgs Hi Hr Hdir Hopen.
  pose proof (run_changes_grows _ _ _ (make_output_dir_grows out (fs w))) as Hg.
  set (f1 := snd (make_output_dir out (fs w))) in *.
  assert (∀ w', fs w' = f1 →
            run_changes out (fs w) (fs (ExtractModel.turns b64decode gltf out 0 (take i imgs) w')))
    as Hbefore.
  { intros w' Hw'. rewrite fs_turns.
    apply (run_changes_steps out 0); [apply trace_indexed|by rewrite Hw']. }
  destruct (resolve_write_name _ _ _ _ _ _ _ _ _ (Hr _ Hg)) as (ext & Hp & Hext).
  split.
  - rewrite (run_fs glb out gltf w Hload). fold f1. rewrite Hdir, Himgs.
    destruct (truthy_list (GLTF2.buffers gltf)); [|done].
    rewrite (fs_steps_lookup out 0) by apply trace_indexed.
    erewrite (last_write_at out 0); [by rewrite Hopen|apply trace_indexed|].
    rewrite (trace_lookup _ _ _ _ _ _ _ image Hi). f_equal. apply Hr. by apply Hbefore.
  - unfold exec. rewrite (extract_run _ _ glb out gltf w Hload), Hdir. simpl.
    unfold ExtractModel.final. rewrite Himgs.
    destruct (truthy_list (GLTF2.buffers gltf)); [|done].
    unfold say at 1. simpl. apply elem_of_app. left.
    erewrite turns_middle by done. apply stdout_turns.
    rewrite Hr by (by apply Hbefore). apply stdout_turn_write.
    subst p.
    match goal with
    | |- open_error (fs (ExtractModel.turns _ _ _ _ _ ?w')) _ = _ =>
        destruct (fs_turns_before b64decode gltf out imgs i ext w' Hext) as [_ ->]
    end.
    done.
Qed.

(** A run leaves the texture paths of a descriptor that writes nothing as
    they were. *)
Lemma run_no_write glb out gltf imgs i image ext w :
  GLTF2_load (fs w) glb = Ok gltf →
  truthy_list (GLTF2.images gltf) = Some imgs →
  imgs !! i = Some image →
  (∀ f p data line, resolve gltf out i image f ≠ Ok (Write p data line)) →
  fs (exec (extract glb out) w) !! path_join out (texture_name i ext)
  = fs w !! path_join out (texture_name i ext).
Proof.
  intros Hload Himgs Hi Hr. rewrite (run_fs glb out gltf w Hload), Himgs.
  pose proof (grows_texture out _ _ i ext (make_output_dir_grows out (fs w))) as Hg.
  destruct (fst (make_output_dir out (fs w))); [|done].
  destruct (truthy_list (GLTF2.buffers gltf)); [|done].
  rewrite (fs_steps_lookup out 0) by apply trace_indexed.
  destruct (last_write _ _) as [d|] eqn:Hd; [|done].
  destruct (last_write_index _ _ _ Hd) as (k & line & Hk).
  destruct (trace_indexed b64decode gltf out 0 imgs _ _ _ _ _ Hk) as (e & He & _).
  apply texture_path_inj in He. simpl in He. subst k.
  rewrite (trace_lookup _ _ _ _ _ _ _ image Hi) in Hk. injection Hk as Hk.
  by destruct (Hr _ _ _ _ Hk).
Qed.

End Runs.

End RunFacts.

(** ** The claims on the extractor *)

Module ExtractorSpec.
Import Extract ExtractModel PathFacts FsFacts DirFacts ExtractFacts RunFacts.

(** *** One descriptor *)

Section Descriptor.

Context (b64decode : string → result bytes).

Local Abbreviation resolve := (ExtractModel.resolve b64decode).
Local Abbreviation process_image := (Extract.process_image b64decode).
Local Abbreviation loop_body := (Extract.loop_body b64decode).

(** A descriptor without URI whose buffer view resolves, and whose buffer
    is read through its URI, comes to the write of the slice of the
    buffer. *)
Lemma resolve_buffer_view gltf out i image bv view buffer buffer_uri data off len f :
  truthy_str (Image.uri image) = None →
  Image.bufferView image = Val bv →
  buffer_view_of gltf bv = Ok view →
  buffer_of gltf view = Ok buffer →
  truthy_str (Buffer.uri buffer) = Some buffer_uri →
  GLTF2.get_data_from_buffer_uri gltf f buffer_uri = Ok (Some data) →
  start_of (BufferView.byteOffset view) = Some off →
  BufferView.byteLength view = Val len →
  let filename := texture_name i (extension_of (Image.mimeType image)) in
  resolve gltf out i image f
  = Ok (Write (path_join out filename) (slice data off (off + len))
          ("Extracted " +:+ filename +:+ " from buffer view " +:+ pretty bv)).
Proof.
  intros Huri Hbv Hview Hbuffer Hburi Hdata Hoff Hlen. unfold ExtractModel.resolve.
  rewrite Huri, Hbv, Hview. simpl. rewrite Hbuffer. simpl.
  unfold buffer_data_of. rewrite Hburi, Hdata. simpl.
  by rewrite Hlen, Hoff.
Qed.

(** A descriptor without URI whose buffer has no URI comes to the
    [TypeError] of line 62, where the method [gltf.binary_blob] is
    sliced. *)
Lemma resolve_embedded gltf out i image bv view buffer off len f :
  truthy_str (Image.uri image) = None →
  Image.bufferView image = Val bv →
  buffer_view_of gltf bv = Ok view →
  buffer_of gltf view = Ok buffer →
  truthy_str (Buffer.uri buffer) = None →
  start_of (BufferView.byteOffset view) = Some off →
  BufferView.byteLength view = Val len →
  resolve gltf out i image f
  = Raise (Exn TypeError "'method' object is not subscriptable").
Proof.
  intros Huri Hbv Hview Hbuffer Hburi Hoff Hlen. unfold ExtractModel.resolve.
  rewrite Huri, Hbv, Hview. simpl. rewrite Hbuffer. simpl.
  unfold buffer_data_of. rewrite Hburi. simpl.
  by rewrite Hlen, Hoff.
Qed.

(** A data URI with a header before its first comma comes to the write of
    the decoded payload. *)
Lemma resolve_data_uri gltf out i image header payload data f :
  Image.uri image = Val (header +:+ "," +:+ payload) →
  startswith header "data:" = true →
  contains "," header = false →
  b64decode payload = Ok data →
  let filename := texture_name i (spec_subtype header) in
  resolve gltf out i image f
  = Ok (Write (path_join out filename) data
          ("Extracted " +:+ filename +:+ " from data URI")).
Proof.
  intros Huri Hstart Hcomma Hdata. unfold ExtractModel.resolve. rewrite Huri.
  assert (truthy_str (Val (header +:+ "," +:+ payload))
          = Some (header +:+ "," +:+ payload)) as -> by (by destruct header).
  rewrite (startswith_app _ _ _ Hstart).
  change ("," +:+ payload) with (String "," payload).
  rewrite (split1_first _ _ _ Hcomma). simpl. rewrite Hdata. simpl.
  by rewrite extension_of_header_subtype.
Qed.

Lemma resolve_external gltf out i image name f :
  Image.uri image = Val name → name ≠ "" → startswith name "data:" = false →
  resolve gltf out i image f
  = Ok (Say ("Image " +:+ pretty i +:+ " references external file: " +:+ name)).
Proof.
  intros Huri Hne Hstart. unfold ExtractModel.resolve, truthy_str. rewrite Huri.
  apply String.eqb_neq in Hne. by rewrite Hne, Hstart.
Qed.

(** A descriptor without URI writes at the path that its MIME type gives. *)
Lemma resolve_view_path gltf out i image p data line f :
  truthy_str (Image.uri image) = None →
  resolve gltf out i image f = Ok (Write p data line) →
  p = path_join out (texture_name i (extension_of (Image.mimeType image))).
Proof.
  intros Huri. unfold ExtractModel.resolve. rewrite Huri.
  destruct (Image.bufferView image) as [| |bv]; [done..|].
  destruct (buffer_view_of gltf bv) as [buffer_view|]; simpl; [|done].
  destruct (buffer_of gltf buffer_view) as [buffer|]; simpl; [|done].
  destruct (buffer_data_of gltf buffer f) as [[|bdata|]|]; simpl; [done| | |done].
  - destruct (getattr _ _ (BufferView.byteLength buffer_view)) as [len|]; simpl; [|done].
    destruct (add _ len); simpl; [|done].
    by intros [= <- _ _].
  - destruct (getattr _ _ (BufferView.byteLength buffer_view)) as [len|]; simpl; [|done].
    by destruct (add _ len).
Qed.

(** C1 (a defect of the code): the bytes of the embedded binary section
    are never read. A descriptor without URI carries a buffer view that
    resolves to a buffer without URI; the container has an embedded binary
    section, and the range [offset, offset+length) lies in it. Line 52
    names the method [gltf.binary_blob] and does not call it, so line 62
    raises a [TypeError]: the turn of the loop leaves the file system as it
    is, with no file [texture_<i>.<ext>], and prints the error. *)
Theorem c1_embedded_section_not_read gltf out i image bv view buffer data off len w :
  truthy_str (Image.uri image) = None →
  Image.bufferView image = Val bv →
  buffer_view_of gltf bv = Ok view →
  buffer_of gltf view = Ok buffer →
  truthy_str (Buffer.uri buffer) = None →
  GLTF2.binary_blob gltf = Some data →
  start_of (BufferView.byteOffset view) = Some off →
  BufferView.byteLength view = Val len →
  (0 ≤ off)%Z → (0 ≤ len)%Z → (off + len ≤ Z.of_nat (length data))%Z →
  loop_body gltf out i image w
  = (Ok (),
     World (fs w)
       (stdout w ++ ["Error extracting image " +:+ pretty i
                     +:+ ": 'method' object is not subscriptable"])).
Proof.
  intros Huri Hbv Hview Hbuffer Hburi _ Hoff Hlen _ _ _.
  rewrite loop_body_turn.
  by rewrite (resolve_embedded gltf out i image bv view buffer off len (fs w)).
Qed.

(** C2 (as amended): a buffer view that runs past the end of its buffer is
    no error. The buffer is read through its URI; with an offset and a
    length that are not negative, and a file that can be opened, the turn
    of the loop writes the bytes from the offset to the end of the buffer
    (none when the offset is past the end) to [texture_<i>.<ext>], reports
    the extraction, and the loop goes on with the next descriptor. *)
Theorem c2_view_past_end gltf out i image rest bv view buffer buffer_uri data
    off len w :
  truthy_str (Image.uri image) = None →
  Image.bufferView image = Val bv →
  buffer_view_of gltf bv = Ok view →
  buffer_of gltf view = Ok buffer →
  truthy_str (Buffer.uri buffer) = Some buffer_uri →
  GLTF2.get_data_from_buffer_uri gltf (fs w) buffer_uri = Ok (Some data) →
  start_of (BufferView.byteOffset view) = Some off →
  BufferView.byteLength view = Val len →
  (0 ≤ off)%Z → (0 ≤ len)%Z → (Z.of_nat (length data) < off + len)%Z →
  let filename := texture_name i (extension_of (Image.mimeType image)) in
  open_error (fs w) (path_join out filename) = None →
  for_enumerate (loop_body gltf out) i (image :: rest) w
  = for_enumerate (loop_body gltf out) (S i) rest
      (World (<[path_join out filename := File (drop (Z.to_nat off) data)]> (fs w))
         (stdout w
            ++ ["Extracted " +:+ filename +:+ " from buffer view " +:+ pretty bv])).
Proof.
  intros Huri Hbv Hview Hbuffer Hburi Hdata Hoff Hlen Hoff0 Hlen0 Hpast filename Hopen.
  simpl. unfold mbind, M_bind. rewrite loop_body_turn.
  rewrite (resolve_buffer_view gltf out i image bv view buffer buffer_uri data off len)
    by done.
  rewrite PyFacts.slice_take_drop by done.
  rewrite take_ge by (rewrite length_drop; lia).
  simpl. fold filename. by rewrite Hopen.
Qed.

(** C4: an exception raised while descriptor [i] is processed is caught by
    the handler of its turn, which prints the index and the text of the
    exception; the loop goes on with descriptor [i + 1], and the loop as a
    whole never raises. *)
Theorem c4_exception_caught gltf out i image rest e w w' :
  process_image gltf out i image w = (Raise e, w') →
  for_enumerate (loop_body gltf out) i (image :: rest) w
  = for_enumerate (loop_body gltf out) (S i) rest
      (World (fs w')
         (stdout w' ++ ["Error extracting image " +:+ pretty i +:+ ": " +:+ exn_str e]))
  ∧ outcome (for_enumerate (loop_body gltf out) i (image :: rest)) w = Ok ().
Proof.
  intros Hraise. split.
  - simpl. unfold mbind, M_bind, Extract.loop_body, try_except. by rewrite Hraise.
  - unfold outcome. by rewrite loop_turns.
Qed.

(** C6: a descriptor that is read through its buffer view changes at most
    the file [texture_<i>.<ext>], where [ext] is [jpg] for [image/jpeg],
    [png] for [image/png], [webp] for [image/webp], and [bin] for every
    other MIME type and for none. *)
Theorem c6_extension_by_mime gltf out i image w q :
  truthy_str (Image.uri image) = None →
  fs (exec (loop_body gltf out i image) w) !! q ≠ fs w !! q →
  ∃ ext, q = path_join out (texture_name i ext)
    ∧ match Image.mimeType image with
      | Val m =>
          if decide (m = "image/jpeg") then ext = "jpg"
          else if decide (m = "image/png") then ext = "png"
          else if decide (m = "image/webp") then ext = "webp"
          else ext = "bin"
      | _ => ext = "bin"
      end.
Proof.
  intros Huri. unfold exec. rewrite loop_body_turn. simpl. rewrite fs_turn.
  destruct (resolve gltf out i image (fs w)) as [[p data line|line|]|e] eqn:Hr;
    simpl; try done.
  rewrite apply_write_lookup. case_decide as Hq; [|done]. subst q. intros _.
  exists (extension_of (Image.mimeType image)). split.
  - by eapply resolve_view_path.
  - unfold extension_of. destruct (Image.mimeType image) as [| |m]; [done..|].
    repeat case_decide; subst; try done.
    by rewrite !(proj2 (String.eqb_neq _ _)).
Qed.

End Descriptor.

(** *** A whole run *)

Section Run.

Context (b64decode : string → result bytes).
Context (GLTF2_load : gmap string node → string → result GLTF2.t).

Local Abbreviation resolve := (ExtractModel.resolve b64decode).
Local Abbreviation extract := (Extract.extract_textures_from_glb b64decode GLTF2_load).
Local Abbreviation final := (ExtractModel.final b64decode).

(** C3 (as amended): the container has buffers, and the descriptor at
    position [i] has a data URI: a header that starts with [data:], a first
    comma, and a payload that [base64.b64decode] decodes. Lines 11 and 12
    raise nothing, and the file [texture_<i>.<subtype>] of the output
    directory can then be opened, where the subtype is what follows the
    last [/] of the header, up to a [;]. Then, after the run, that file
    holds exactly the decoded bytes, and the run has reported the
    extraction. *)
Theorem c3_data_uri_payload glb out gltf imgs i image header payload data w :
  GLTF2_load (fs w) glb = Ok gltf →
  truthy_list (GLTF2.buffers gltf) ≠ None →
  truthy_list (GLTF2.images gltf) = Some imgs →
  imgs !! i = Some image →
  Image.uri image = Val (header +:+ "," +:+ payload) →
  startswith header "data:" = true →
  contains "," header = false →
  b64decode payload = Ok data →
  let filename := texture_name i (spec_subtype header) in
  fst (make_output_dir out (fs w)) = Ok () →
  open_error (snd (make_output_dir out (fs w))) (path_join out filename) = None →
  fs (exec (extract glb out) w) !! path_join out filename = Some (File data)
  ∧ ("Extracted " +:+ filename +:+ " from data URI") ∈ stdout (exec (extract glb out) w).
Proof.
  intros Hload Hbufs Himgs Hi Huri Hstart Hcomma Hdata filename Hdir Hopen.
  eapply run_write; try done.
  intros f _. by apply (resolve_data_uri b64decode gltf out i image header payload data).
Qed.



(** C8: a descriptor whose URI is a file name, not a data URI, produces no
    file. Its turn of the loop leaves the file system as it is and prints
    one line, which names the file; and a whole run in which the descriptor
    has position [i] leaves every path [texture_<i>.<ext>] as it was. *)
Theorem c8_external_file gltf out i image name w :
  Image.uri image = Val name → name ≠ "" → startswith name "data:" = false →
  Extract.loop_body b64decode gltf out i image w
  = (Ok (),
     World (fs w)
       (stdout w ++ ["Image " +:+ pretty i +:+ " references external file: " +:+ name]))
  ∧ ∀ glb imgs w0 ext,
      GLTF2_load (fs w0) glb = Ok gltf →
      truthy_list (GLTF2.images gltf) = Some imgs →
      imgs !! i = Some image →
      fs (exec (extract glb out) w0) !! path_join out (texture_name i ext)
      = fs w0 !! path_join out (texture_name i ext).
Proof.
  intros Huri Hne Hstart.
  pose proof (λ f, resolve_external b64decode gltf out i image name f Huri Hne Hstart)
    as Hr.
  split.
  - by rewrite loop_body_turn, Hr.
  - intros glb imgs w0 ext Hload Himgs Hi.
    apply (run_no_write b64decode GLTF2_load glb out gltf imgs i image); try done.
    intros f p data line. by rewrite Hr.
Qed.


End Run.

(** *** The claims on the example container *)

Local Abbreviation example_run :=
  (extract_textures_from_glb Base64.decode Example.load "ValeroRefinery.glb"
     "extracted_textures").


(** The example reads [scene.bin], which no run into [extracted_textures]
    changes. *)
Lemma example_reads f :
  run_changes "extracted_textures" (fs Example.w1) f →
  Example.load f "ValeroRefinery.glb" = Ok Example.gltf
  ∧ same_reads Example.gltf (fs Example.w1) f.
Proof.
  intros Hf. split; [done|].
  intros bufs buffer u [= <-] Hin Hu.
  apply list_elem_of_singleton in Hin. subst buffer. injection Hu as <-.
  simpl. unfold Example.read_uri.
  destruct (Hf "scene.bin") as [->|[[Hn _]|(i & ext & Heq)]]; [done|done|].
  unfold path_join in Heq. by destruct (startswith (texture_name i ext) "/").
Qed.

(** The JPEG of the scene as a GLB file: offset 100 and length 50 lie in
    the embedded binary section of 200 bytes, and the turn of the loop
    writes nothing and prints the [TypeError]. *)
Lemma c1_embedded_section_not_read_witness :
  loop_body Base64.decode Example.glb "extracted_textures" 0 Example.jpeg Example.w2
  = (Ok (),
     World (fs Example.w2) ["Error extracting image 0: 'method' object is not subscriptable"]).
Proof.
  apply (c1_embedded_section_not_read Base64.decode Example.glb "extracted_textures" 0
           Example.jpeg 0%Z
           (BufferView.Make (Val 0%Z) (Val 100%Z) (Val 50%Z)) (Buffer.Make IsNone)
           Example.blob 100%Z 50%Z Example.w2);
    try reflexivity; try lia; vm_compute; discriminate.
Defined.

(** The oversized view of the example: offset 190 and length 50 in a buffer
    of 200 bytes give [texture_4.bin] with the 10 bytes that are left. *)
Lemma c2_view_past_end_witness :
  for_enumerate (loop_body Base64.decode Example.gltf "extracted_textures") 4
    [Example.oversized; Example.named_view] Example.w2
  = for_enumerate (loop_body Base64.decode Example.gltf "extracted_textures") 5
      [Example.named_view]
      (World (<["extracted_textures/texture_4.bin" := File (drop 190 Example.blob)]>
                (fs Example.w2))
         ["Extracted texture_4.bin from buffer view 1"]).
Proof.
  apply (c2_view_past_end Base64.decode Example.gltf "extracted_textures" 4
           Example.oversized [Example.named_view] 1%Z
           (BufferView.Make (Val 0%Z) (Val 190%Z) (Val 50%Z))
           (Buffer.Make (Val "scene.bin")) "scene.bin"
           Example.blob 190%Z 50%Z Example.w2);
    try reflexivity; try lia; vm_compute; discriminate.
Defined.

(** The counterexample to C2 as it is stated: the view of descriptor 4 ends
    at byte 240 of a buffer of 200 bytes, which is read through its URI,
    and the run reports an extraction and no error for it, having written
    the 10 bytes that exist. *)
Lemma c2_counterexample :
  buffer_view_of Example.gltf 1 = Ok (BufferView.Make (Val 0%Z) (Val 190%Z) (Val 50%Z))
  ∧ Example.read_uri (fs Example.w1) "scene.bin" = Ok (Some Example.blob)
  ∧ length Example.blob = 200
  ∧ stdout (exec example_run Example.w1)
    = ["Loading GLB file: ValeroRefinery.glb";
       "Found 6 images in the GLB file.";
       "Extracted texture_0.jpg from buffer view 0";
       "Extracted texture_1.png from data URI";
       "Image 2 references external file: wood.png";
       "Error extracting image 3: list index out of range";
       "Extracted texture_4.bin from buffer view 1";
       "Image 5 references external file: wood.png";
       String "010"
         "Texture extraction complete. Check the extracted_textures directory."]
  ∧ fs (exec example_run Example.w1) !! "extracted_textures/texture_4.bin"
    = Some (File (drop 190 Example.blob))
  ∧ length (drop 190 Example.blob) = 10.
Proof. repeat split; by vm_compute. Qed.

(** The PNG of the example: the header [data:image/png;base64] gives the
    extension [png], and the file holds the decoded payload. *)
Lemma c3_data_uri_payload_witness :
  fs (exec example_run Example.w0) !! "extracted_textures/texture_1.png"
  = Some (File (list_byte_of_string "hello"))
  ∧ "Extracted texture_1.png from data URI" ∈ stdout (exec example_run Example.w0).
Proof.
  apply (c3_data_uri_payload Base64.decode Example.load "ValeroRefinery.glb"
           "extracted_textures" Example.gltf
           [Example.jpeg; Example.png; Example.external; Example.dangling;
            Example.oversized; Example.named_view]
           1 Example.png "data:image/png;base64" "aGVsbG8="
           (list_byte_of_string "hello") Example.w0);
    try reflexivity; try done.
Defined.

(** The counterexample to C3 as it is stated: a container whose one image
    is in a data URI has no buffer, and the run stops at line 17 before it
    looks at the image: no [texture_0] file is written. *)
Lemma c3_counterexample :
  Example.load (fs Example.w0) "inline.gltf" = Ok Example.inline
  ∧ GLTF2.images Example.inline = Val [Example.png]
  ∧ Image.uri Example.png = Val "data:image/png;base64,aGVsbG8="
  ∧ Base64.decode "aGVsbG8=" = Ok (list_byte_of_string "hello")
  ∧ extract_textures_from_glb Base64.decode Example.load "inline.gltf"
      "extracted_textures" Example.w0
    = (Ok (),
       World {[ "extracted_textures" := Dir ]}
         ["Loading GLB file: inline.gltf"; "No buffers found in the GLB file."])
  ∧ (fs (exec (extract_textures_from_glb Base64.decode Example.load "inline.gltf"
                 "extracted_textures") Example.w0)
       !! "extracted_textures/texture_0.png" = None).
Proof. repeat split; by vm_compute. Qed.

(** The descriptor of the example whose buffer view does not exist. *)
Lemma c4_exception_caught_witness :
  for_enumerate (loop_body Base64.decode Example.gltf "extracted_textures") 3
    [Example.dangling; Example.oversized] Example.w0
  = for_enumerate (loop_body Base64.decode Example.gltf "extracted_textures") 4
      [Example.oversized]
      (World ∅ ["Error extracting image 3: list index out of range"])
  ∧ outcome
      (for_enumerate (loop_body Base64.decode Example.gltf "extracted_textures") 3
         [Example.dangling; Example.oversized]) Example.w0 = Ok ().
Proof.
  apply (c4_exception_caught Base64.decode Example.gltf "extracted_textures" 3
           Example.dangling [Example.oversized]
           (Exn IndexError "list index out of range") Example.w0 Example.w0).
  reflexivity.
Defined.



(** The JPEG of the example changes [texture_0.jpg]. *)
Lemma c6_extension_by_mime_witness :
  ∃ ext, "extracted_textures/texture_0.jpg"
         = path_join "extracted_textures" (texture_name 0 ext)
    ∧ ext = "jpg".
Proof.
  apply (c6_extension_by_mime Base64.decode Example.gltf "extracted_textures" 0
           Example.jpeg Example.w2 "extracted_textures/texture_0.jpg").
  - reflexivity.
  - vm_compute. discriminate.
Defined.



(** The external file of the example. *)
Lemma c8_external_file_witness :
  loop_body Base64.decode Example.gltf "extracted_textures" 2 Example.external
    Example.w0
  = (Ok (), World ∅ ["Image 2 references external file: wood.png"])
  ∧ ∀ glb imgs w0 ext,
      Example.load (fs w0) glb = Ok Example.gltf →
      truthy_list (GLTF2.images Example.gltf) = Some imgs →
      imgs !! 2 = Some Example.external →
      fs (exec (extract_textures_from_glb Base64.decode Example.load glb
                  "extracted_textures") w0)
        !! path_join "extracted_textures" (texture_name 2 ext)
      = fs w0 !! path_join "extracted_textures" (texture_name 2 ext).
Proof.
  apply (c8_external_file Base64.decode Example.load Example.gltf
           "extracted_textures" 2 Example.external "wood.png" Example.w0).
  - reflexivity.
  - discriminate.
  - reflexivity.
Defined.



End ExtractorSpec.

(** ** The claims on the renamer *)

Module MtlSpec.
Import Mtl MtlModel.

Lemma startswith_cons c s a p :
  startswith (String c s) (String a p)
  = if ascii_dec a c then startswith s p else false.
Proof. done. Qed.

Lemma newmtl_not_illum line :
  startswith line "newmtl" = true → startswith line "illum" = false.
Proof.
  destruct line as [|c line]; [done|].
  change "newmtl" with (String "n" "ewmtl"). change "illum" with (String "i" "llum").
  rewrite !startswith_cons.
  destruct (ascii_dec "n" c) as [<-|]; [|done]. intros _.
  by destruct (ascii_dec "i" "n").
Qed.

Lemma owner_snoc_newmtl before line m :
  startswith line "newmtl" = true → material_of_line line = Ok m →
  owner (before ++ [line]) = Some m.
Proof.
  intros Hnew Hm. unfold owner. rewrite filter_app, filter_cons_True by done.
  rewrite filter_nil, last_snoc. by rewrite Hm.
Qed.

Lemma owner_snoc_other before line :
  startswith line "newmtl" = false → owner (before ++ [line]) = owner before.
Proof.
  intros Hnew. unfold owner. rewrite filter_app, filter_cons_False by congruence.
  by rewrite filter_nil, app_nil_r.
Qed.

(** The variable [current_material] of the rewriting pass is the owner of
    the lines read so far. *)
Lemma update_mtl_from map before rest materials :
  read_materials rest = Ok materials →
  update_mtl map (owner before) rest = (spec_update_from map before rest, None).
Proof.
  revert before materials.
  induction rest as [|line rest IH]; intros before materials Hread; simpl; [done|].
  simpl in Hread. unfold inserted.
  destruct (startswith line "newmtl") eqn:Hnew.
  - rewrite (newmtl_not_illum _ Hnew). simpl.
    destruct (material_of_line line) as [m|] eqn:Hm; [|done]. simpl in Hread.
    destruct (read_materials rest) as [ms|] eqn:Hrest; [|done].
    specialize (IH (before ++ [line]) ms eq_refl).
    rewrite (owner_snoc_newmtl before line m Hnew Hm) in IH. by rewrite IH.
  - specialize (IH (before ++ [line]) materials Hread).
    rewrite (owner_snoc_other before line Hnew) in IH.
    destruct (startswith line "illum"); simpl; [|by rewrite IH].
    unfold mapped. destruct (owner before) as [m|]; simpl; [|by rewrite IH].
    destruct (bool_decide (is_Some (map !! m))); simpl; by rewrite IH.
Qed.

(** *** The lines of the updated file *)

#[local] Arguments String.append !s1 s2 : simpl nomatch.

Lemma readlines_line l t : is_line l = true → readlines (l +:+ t) = l :: readlines t.
Proof.
  induction l as [|c l IH]; simpl; [done|].
  destruct (Ascii.eqb c "010") eqn:Hc.
  - intros ->%String.eqb_eq. done.
  - intros Hl. by rewrite IH.
Qed.

Lemma readlines_written l :
  Forall (λ s, is_line s = true) l → readlines (written l) = l.
Proof.
  induction 1 as [|s l Hs _ IH]; simpl; [done|].
  by rewrite readlines_line, IH.
Qed.

Lemma readlines_nil s : readlines s = [] → s = "".
Proof.
  destruct s as [|c s]; simpl; [done|]. by repeat case_match.
Qed.

(** The lines of a text that ends with a line end are full lines. *)
Lemma readlines_full text :
  text = "" ∨ endswith_char text "010" = true →
  Forall (λ s, is_line s = true) (readlines text).
Proof.
  induction text as [|c t IH]; simpl; [constructor|]. intros [?|Hend]; [done|].
  destruct (Ascii.eqb c "010") eqn:Hc.
  - constructor; [simpl; by rewrite Hc|].
    apply IH. destruct t; [by left|by right].
  - destruct t as [|d t]; [congruence|].
    specialize (IH (or_intror Hend)).
    destruct (readlines (String d t)) as [|l ls] eqn:Hl.
    { by apply readlines_nil in Hl. }
    inversion_clear IH. constructor; [|done]. simpl. by rewrite Hc.
Qed.

Lemma is_line_app a b : contains "010" a = false → is_line (a +:+ b) = is_line b.
Proof.
  induction a as [|c a IH]; simpl; [done|].
  intros [-> Ha]%orb_false_iff. auto.
Qed.

Lemma no_space_no_newline s : no_space s = true → contains "010" s = false.
Proof.
  induction s as [|c s IH]; simpl; [done|].
  intros [Hc Hs]%andb_true_iff. rewrite IH by done.
  destruct (Ascii.eqb_spec c "010") as [->|]; done.
Qed.

Lemma no_space_snoc w c :
  no_space w = true → isspace c = false → no_space (w +:+ String c "") = true.
Proof.
  intros Hw Hc. induction w as [|a w IH]; simpl in *.
  - by rewrite Hc.
  - apply andb_true_iff in Hw as [-> Hw]. auto.
Qed.

Lemma split_ws_go_no_space cur s x :
  (∀ w, cur = Some w → no_space w = true) →
  x ∈ split_ws_go cur s → no_space x = true.
Proof.
  revert cur. induction s as [|c s IH]; intros cur Hcur; simpl.
  - destruct cur as [w|]; [|by intros ?%elem_of_nil].
    intros ->%list_elem_of_singleton. by apply Hcur.
  - destruct (isspace c) eqn:Hc.
    + destruct cur as [w|].
      * intros [->|Hin]%elem_of_cons; [by apply Hcur|]. by apply (IH None).
      * by apply (IH None).
    + destruct cur as [w|]; apply IH; intros w' [= <-].
      * apply no_space_snoc; auto.
      * simpl. by rewrite Hc.
Qed.

Lemma getitem_elem {A} (l : list A) i x : getitem (Some l) (Some i) = Ok x → x ∈ l.
Proof.
  unfold getitem. cbv zeta.
  destruct (i <? 0)%Z;
    (destruct (_ <? 0)%Z; [done|]; destruct (l !! _) eqn:Hl; [|done];
     intros [= <-]; by eapply list_elem_of_lookup_2).
Qed.

(** A material name holds no line end. *)
Lemma material_of_line_no_newline line m :
  material_of_line line = Ok m → contains "010" m = false.
Proof.
  intros Hm%getitem_elem. apply no_space_no_newline.
  by eapply (split_ws_go_no_space None).
Qed.

Lemma map_Kd_line_full m : contains "010" m = false → is_line (map_Kd_line m) = true.
Proof.
  intros Hm. unfold map_Kd_line. rewrite (is_line_app "map_Kd ") by done.
  by rewrite is_line_app.
Qed.

Lemma spec_update_full map before lines :
  Forall (λ s, is_line s = true) lines →
  Forall (λ s, is_line s = true) (spec_update_from map before lines).
Proof.
  intros Hall. revert before.
  induction Hall as [|line lines Hline _ IH]; intros before; simpl; [constructor|].
  constructor; [done|]. apply Forall_app. split; [|apply IH].
  unfold inserted. destruct (startswith line "illum"); [|constructor].
  unfold owner.
  destruct (last _) as [l|]; [|constructor].
  destruct (material_of_line l) as [m|] eqn:Hm; [|constructor].
  case_bool_decide; constructor; [|constructor].
  by eapply map_Kd_line_full, material_of_line_no_newline.
Qed.

#[local] Arguments String.append : simpl never.

(** The mapping loop never raises, touches no file, keeps what was printed,
    and maps the materials whose texture is in the listing. *)
Lemma map_materials_spec textures materials m0 w :
  ∃ map w',
    map_materials textures materials m0 w = (Ok map, w')
    ∧ fs w' = fs w
    ∧ (∀ line, line ∈ stdout w → line ∈ stdout w')
    ∧ (∀ m, is_Some (map !! m) ↔
            is_Some (m0 !! m)
            ∨ (m ∈ materials
               ∧ ∃ suffix, search_material m = Some suffix
                           ∧ expected_texture suffix ∈ textures))
    ∧ (∀ m suffix, m ∈ materials → search_material m = Some suffix →
         expected_texture suffix ∉ textures →
         warning_line m (expected_texture suffix) ∈ stdout w').
Proof.
  revert m0 w. induction materials as [|x materials IH]; intros m0 w; simpl.
  - exists m0, w. repeat split; try done.
    + by left.
    + intros [?|[Hin _]]; [done|]. by apply elem_of_nil in Hin.
    + intros m suffix Hin. by apply elem_of_nil in Hin.
  - destruct (search_material x) as [sx|] eqn:Hx.
    + case_bool_decide as Htex; unfold mbind, M_bind, print; simpl.
      * destruct (IH (<[x := expected_texture sx]> m0)
                    (World (fs w) (stdout w ++ [("Mapped " +:+ x +:+ " -> "
                                                   +:+ expected_texture sx)%string])))
          as (map & w' & -> & Hfs & Hout & Hmap & Hwarn).
        exists map, w'. repeat split; try done.
        -- intros line Hin. apply Hout. simpl. apply elem_of_app. by left.
        -- intros Hm. apply Hmap in Hm as [Hm|[Hin Hs]].
           ++ rewrite lookup_insert in Hm. case_decide; [subst|by left].
              right. split; [by left|]. eauto.
           ++ right. split; [by right|done].
        -- intros [Hm|[Hin Hs]]; apply Hmap.
           ++ left. rewrite lookup_insert. case_decide; [eauto|done].
           ++ apply elem_of_cons in Hin as [->|Hin]; [|by right].
              left. rewrite lookup_insert_eq. eauto.
        -- intros m suffix Hin Hs Hno.
           apply elem_of_cons in Hin as [->|Hin]; [|by eapply Hwarn].
           congruence.
      * destruct (IH m0 (World (fs w) (stdout w
                            ++ [warning_line x (expected_texture sx)])))
          as (map & w' & -> & Hfs & Hout & Hmap & Hwarn).
        exists map, w'. repeat split; try done.
        -- intros line Hin. apply Hout. simpl. apply elem_of_app. by left.
        -- intros Hm. apply Hmap in Hm as [Hm|[Hin Hs]]; [by left|].
           right. split; [by right|done].
        -- intros [Hm|[Hin Hs]]; apply Hmap; [by left|].
           apply elem_of_cons in Hin as [->|Hin]; [|by right].
           destruct Hs as (suffix & Hs & Hin). congruence.
        -- intros m suffix Hin Hs Hno.
           apply elem_of_cons in Hin as [->|Hin]; [|by eapply Hwarn].
           apply Hout. simpl. apply elem_of_app. right.
           replace suffix with sx by congruence. by left.
    + destruct (IH m0 w) as (map & w' & -> & Hfs & Hout & Hmap & Hwarn).
      exists map, w'. repeat split; try done.
      * intros Hm. apply Hmap in Hm as [Hm|[Hin Hs]]; [by left|].
        right. split; [by right|done].
      * intros [Hm|[Hin Hs]]; apply Hmap; [by left|].
        apply elem_of_cons in Hin as [->|Hin]; [|by right].
        destruct Hs as (suffix & Hs & _). congruence.
      * intros m suffix Hin Hs Hno.
        apply elem_of_cons in Hin as [->|Hin]; [congruence|by eapply Hwarn].
Qed.

(** What the mapping loop prints: for each material in turn, its report. It
    touches no file. *)
Lemma map_materials_console textures materials m0 w :
  fs (snd (map_materials textures materials m0 w)) = fs w
  ∧ stdout (snd (map_materials textures materials m0 w))
    = stdout w ++ flat_map (report textures) materials.
Proof.
  revert m0 w. induction materials as [|x materials IH]; intros m0 w; simpl.
  - by rewrite app_nil_r.
  - unfold report at 1. destruct (search_material x) as [sx|].
    + case_bool_decide; unfold mbind, M_bind, print; simpl;
        match goal with
        | |- context [map_materials textures materials ?m ?w0] =>
            destruct (IH m w0) as [Hfs Hout]
        end; rewrite Hfs, Hout; simpl; by rewrite <-app_assoc.
    + apply IH.
Qed.

(** C9 (as amended): the passes of lines 19 to 24, 37 to 48 and 75 to 85,
    for the texture listing of lines 29 and 30, in a run that reaches line
    75. For a material file whose [newmtl] lines all name a material, so
    that lines 19 to 24 raise nothing, the renamer maps exactly the
    materials named [...Material_<suffix>] whose [Image_<suffix>.png] is in
    the texture listing, and writes a copy of the file in which every line
    is kept and [map_Kd <material>.png] follows each [illum] line of a
    mapped material; when the text ends with a line end, these are the
    lines of the copy. The mapping loop touches no file and prints, for
    each material in the order of the file, one line: that it is mapped,
    or, for a material named [...Material_<suffix>] without its texture, a
    warning, after which the pass goes on. For a material whose name has no
    such part it prints nothing and maps nothing. *)
Theorem c9_updated_mtl text textures materials w :
  read_materials (readlines text) = Ok materials →
  ∃ map w',
    map_materials textures materials ∅ w = (Ok map, w')
    ∧ (∀ m, is_Some (map !! m) ↔
            m ∈ materials
            ∧ ∃ suffix, search_material m = Some suffix
                        ∧ expected_texture suffix ∈ textures)
    ∧ update_mtl map None (readlines text) = (spec_update map (readlines text), None)
    ∧ (text = "" ∨ endswith_char text "010" = true →
       readlines (written (spec_update map (readlines text)))
       = spec_update map (readlines text))
    ∧ (∀ m suffix, m ∈ materials → search_material m = Some suffix →
         expected_texture suffix ∉ textures →
         warning_line m (expected_texture suffix) ∈ stdout w')
    ∧ fs w' = fs w
    ∧ stdout w' = stdout w ++ flat_map (report textures) materials
    ∧ (∀ m map0 w0, search_material m = None →
         map_materials textures [m] map0 w0 = (Ok map0, w0)).
Proof.
  intros Hread.
  destruct (map_materials_spec textures materials ∅ w)
    as (map & w' & Hrun & _ & _ & Hmap & Hwarn).
  pose proof (map_materials_console textures materials ∅ w) as [Hfs Hout].
  rewrite Hrun in Hfs, Hout. simpl in Hfs, Hout.
  exists map, w'. split_and!; try done.
  - intros m. rewrite Hmap, lookup_empty. split; [|by right].
    intros [[? ?]|?]; done.
  - by apply (update_mtl_from map [] _ materials).
  - intros Hend. by apply readlines_written, spec_update_full, readlines_full.
  - intros m map0 w0 Hm. simpl. by rewrite Hm.
Qed.

(** The material file of the example: [Material_0.1000] has its texture,
    [Wood] has no name of the convention, [Material_7] has no texture. *)
Lemma c9_updated_mtl_witness :
  ∃ map w',
    map_materials Example.textures ["Material_0.1000"; "Wood"; "Material_7"] ∅
      Example.w0 = (Ok map, w')
    ∧ (∀ m, is_Some (map !! m) ↔
            m ∈ ["Material_0.1000"; "Wood"; "Material_7"]
            ∧ ∃ suffix, search_material m = Some suffix
                        ∧ expected_texture suffix ∈ Example.textures)
    ∧ update_mtl map None (readlines Example.mtl)
      = (spec_update map (readlines Example.mtl), None)
    ∧ (Example.mtl = "" ∨ endswith_char Example.mtl "010" = true →
       readlines (written (spec_update map (readlines Example.mtl)))
       = spec_update map (readlines Example.mtl))
    ∧ (∀ m suffix, m ∈ ["Material_0.1000"; "Wood"; "Material_7"] →
         search_material m = Some suffix →
         expected_texture suffix ∉ Example.textures →
         warning_line m (expected_texture suffix) ∈ stdout w')
    ∧ fs w' = fs Example.w0
    ∧ stdout w'
      = stdout Example.w0
        ++ flat_map (report Example.textures) ["Material_0.1000"; "Wood"; "Material_7"]
    ∧ (∀ m map0 w0, search_material m = None →
         map_materials Example.textures [m] map0 w0 = (Ok map0, w0)).
Proof.
  apply (c9_updated_mtl Example.mtl Example.textures
           ["Material_0.1000"; "Wood"; "Material_7"] Example.w0).
  reflexivity.
Defined.

(** Without a line end after a last [illum] line, the inserted text lands
    on that line. *)
Lemma update_mtl_without_line_end :
  written (fst (update_mtl {[ "Material_7" := "Image_7.png" ]} None
                  (readlines ("newmtl Material_7" +:+ Example.nl +:+ "illum 2"))))
  = "newmtl Material_7" +:+ Example.nl +:+ "illum 2map_Kd Material_7.png" +:+ Example.nl.
Proof. by vm_compute. Qed.

(** The counterexample to C9 as it is stated: no texture matches the
    material [Wood], and the mapping loop prints nothing about it. *)
Lemma c9_counterexample :
  read_materials (readlines Example.mtl) = Ok ["Material_0.1000"; "Wood"; "Material_7"]
  ∧ (∀ texture, texture ∈ Example.textures → texture = "Image_0.1000.png")
  ∧ map_materials Example.textures ["Material_0.1000"; "Wood"; "Material_7"] ∅
      Example.w0
    = (Ok {[ "Material_0.1000" := "Image_0.1000.png" ]},
       World ∅
         ["Mapped Material_0.1000 -> Image_0.1000.png";
          "Warning: No texture found for material Material_7 (expected Image_7.png)"])
  ∧ update_mtl {[ "Material_0.1000" := "Image_0.1000.png" ]} None
      (readlines Example.mtl)
    = (readlines Example.updated_mtl, None).
Proof.
  repeat split; try by vm_compute.
  intros texture ?%list_elem_of_singleton. done.
Qed.

End MtlSpec.

(** ** More on the extractor: errors, edges and what a run leaves alone *)

Module ExtractorMore.
Import Extract ExtractModel PathFacts FsFacts DirFacts ExtractFacts RunFacts.

Implicit Types (b64decode : string → result bytes).
Implicit Types (GLTF2_load : gmap string node → string → result GLTF2.t).

(** *** Helpers *)

(** The path that a turn changes is the one its descriptor resolves to. *)
Lemma loop_body_changed b64decode gltf out i image w p :
  fs (exec (loop_body b64decode gltf out i image) w) !! p ≠ fs w !! p →
  ∃ data line,
    resolve b64decode gltf out i image (fs w) = Ok (Write p data line)
    ∧ fs (exec (loop_body b64decode gltf out i image) w) !! p = Some (File data).
Proof.
  unfold exec. rewrite loop_body_turn. simpl. rewrite fs_turn.
  destruct (resolve b64decode gltf out i image (fs w)) as [[q data line|line|]|e];
    simpl; try done.
  rewrite apply_write_lookup. case_decide as Hq; [subst q|done].
  intros Hne. exists data, line. split; [done|].
  by destruct (open_error (fs w) p).
Qed.

Lemma slice_infix {A} (l : list A) start stop :
  ∃ pre post, l = pre ++ slice l start stop ++ post.
Proof.
  unfold slice. cbv zeta.
  set (lo := Z.to_nat (slice_bound _ start)). set (n := Z.to_nat _).
  exists (take lo l), (drop n (drop lo l)).
  by rewrite (take_drop n), (take_drop lo).
Qed.

Lemma last_write_paths rs :
  ∃ paths : list string,
    (length paths ≤ length rs)%nat
    ∧ ∀ p, is_Some (last_write rs p) → p ∈ paths.
Proof.
  induction rs as [|r rs (paths & Hlen & Hin)]; simpl.
  - exists []. split; [done|]. by intros p [? ?].
  - destruct r as [[q d line|line|]|e].
    + exists (q :: paths). split; [simpl; lia|]. intros p.
      destruct (last_write rs p) eqn:Hl.
      * intros _. right. apply Hin. by rewrite Hl.
      * case_decide; [subst; by left|by intros [? ?]].
    + exists paths. split; [lia|]. intros p.
      destruct (last_write rs p) eqn:Hl; [|by intros [? ?]].
      intros _. apply Hin. by rewrite Hl.
    + exists paths. split; [lia|]. intros p.
      destruct (last_write rs p) eqn:Hl; [|by intros [? ?]].
      intros _. apply Hin. by rewrite Hl.
    + exists paths. split; [lia|]. intros p.
      destruct (last_write rs p) eqn:Hl; [|by intros [? ?]].
      intros _. apply Hin. by rewrite Hl.
Qed.

Lemma split1_no_sep c s : contains c s = false → split1 c s = [s].
Proof.
  induction s as [|a s IH]; simpl; [done|].
  intros [Ha Hs]%orb_false_iff. by rewrite Ha, IH.
Qed.


(** *** A whole run *)

(** X1: when the container does not load, the run ends with the exception
    of the loader, having printed the first line only and touched no file:
    the output directory is not created. *)
Theorem x1_load_failure_is_fatal b64decode GLTF2_load glb out e w :
  GLTF2_load (fs w) glb = Raise e →
  outcome (extract_textures_from_glb b64decode GLTF2_load glb out) w = Raise e
  ∧ fs (exec (extract_textures_from_glb b64decode GLTF2_load glb out) w) = fs w
  ∧ stdout (exec (extract_textures_from_glb b64decode GLTF2_load glb out) w)
    = stdout w ++ ["Loading GLB file: " +:+ glb].
Proof.
  intros Hload. unfold outcome, exec.
  by rewrite (extract_not_loaded b64decode GLTF2_load glb out e w Hload).
Qed.

(** X2: a run changes directories, which it makes where nothing was, at
    the output directory or at a path that the output directory starts
    with, and at most one path for each descriptor: the path
    [texture_<i>.<ext>] of a position [i] of the container, with no [/] in
    its extension, which then holds a regular file. Nothing else changes. *)
Theorem x2_run_changes_texture_paths_only b64decode GLTF2_load glb out gltf w :
  GLTF2_load (fs w) glb = Ok gltf →
  let w' := exec (extract_textures_from_glb b64decode GLTF2_load glb out) w in
  let n := from_option length 0 (truthy_list (GLTF2.images gltf)) in
  ∃ paths : list string,
    (length paths ≤ n)%nat
    ∧ ∀ p, fs w' !! p ≠ fs w !! p →
        ((∃ rest, out = p +:+ rest) ∧ fs w !! p = None ∧ fs w' !! p = Some Dir)
        ∨ (p ∈ paths
           ∧ ∃ (i : nat) ext data,
               (i < n)%nat ∧ p = path_join out (texture_name i ext)
               ∧ contains "/" ext = false ∧ fs w' !! p = Some (File data)).
Proof.
  intros Hload w' n. unfold w'.
  rewrite (run_fs b64decode GLTF2_load glb out gltf w Hload).
  pose proof (make_output_dir_grows out (fs w)) as Hg.
  set (f1 := snd (make_output_dir out (fs w))) in *.
  assert (∀ p, f1 !! p ≠ fs w !! p →
               (∃ rest, out = p +:+ rest) ∧ fs w !! p = None ∧ f1 !! p = Some Dir)
    as Hdir.
  { intros p Hne. by destruct (Hg p) as [?|(? & ? & ?)]. }
  destruct (fst (make_output_dir out (fs w)));
    [|exists []; split; [simpl; lia|]; intros p Hne; left; by apply Hdir].
  destruct (truthy_list (GLTF2.buffers gltf));
    [|exists []; split; [simpl; lia|]; intros p Hne; left; by apply Hdir].
  unfold n. destruct (truthy_list (GLTF2.images gltf)) as [imgs|];
    [|exists []; split; [simpl; lia|]; intros p Hne; left; by apply Hdir].
  simpl. set (rs := trace b64decode gltf out 0 imgs (World f1 [])).
  assert (indexed out 0 rs) as Hrs by apply trace_indexed.
  assert (length rs = length imgs) as Hlen by apply trace_length.
  destruct (last_write_paths rs) as (paths & Hpaths & Hin).
  exists paths. split; [lia|]. intros p.
  rewrite (fs_steps_lookup out 0) by done.
  destruct (last_write rs p) as [data|] eqn:Hl.
  - intros Hne. assert (p ∈ paths) as Hp by (apply Hin; by rewrite Hl).
    destruct (last_write_index _ _ _ Hl) as (j & line & Hj).
    destruct (Hrs _ _ _ _ Hj) as (ext & -> & Hext). simpl in *.
    rewrite (grows_texture out _ _ j ext Hg) in Hne |- *.
    right. split; [done|]. exists j, ext, data.
    apply lookup_lt_Some in Hj. split_and!; [lia|done..|].
    by destruct (open_error f1 _).
  - intros Hne. left. by apply Hdir.
Qed.

(** X3: a run removes nothing: after it, a directory is still a directory
    and a regular file is still a regular file. *)
Theorem x3_run_keeps_every_path b64decode GLTF2_load glb out w p :
  match fs w !! p with
  | Some Dir =>
      fs (exec (extract_textures_from_glb b64decode GLTF2_load glb out) w) !! p
      = Some Dir
  | Some (File _) =>
      ∃ content,
        fs (exec (extract_textures_from_glb b64decode GLTF2_load glb out) w) !! p
        = Some (File content)
  | None => True
  end.
Proof.
  destruct (GLTF2_load (fs w) glb) as [gltf|e] eqn:Hload.
  - rewrite (run_fs b64decode GLTF2_load glb out gltf w Hload).
    pose proof (make_output_dir_grows out (fs w) p) as Hg.
    set (f1 := snd (make_output_dir out (fs w))) in *.
    assert (match fs w !! p with
            | Some Dir => f1 !! p = Some Dir
            | Some (File _) => ∃ content, f1 !! p = Some (File content)
            | None => True
            end) as Hkeep.
    { destruct Hg as [->|(-> & _)]; [|done]. destruct (fs w !! p) as [[|c]|]; eauto. }
    destruct (fst (make_output_dir out (fs w))); [|done].
    destruct (truthy_list (GLTF2.buffers gltf)); [|done].
    destruct (truthy_list (GLTF2.images gltf)) as [imgs|]; [|done].
    pose proof (fs_steps_keep out 0 (trace b64decode gltf out 0 imgs (World f1 [])) f1 p
                  (trace_indexed _ _ _ _ _ _)) as Hsteps.
    destruct (fs w !! p) as [[|c]|]; [| |done].
    + by rewrite Hkeep in Hsteps.
    + destruct Hkeep as [c' Hc']. by rewrite Hc' in Hsteps.
  - unfold exec. rewrite (extract_not_loaded b64decode GLTF2_load glb out e w Hload).
    simpl. destruct (fs w !! p) as [[|c]|]; try done. by eexists.
Qed.

(** X12: the console of a run that reaches the loop, lines 11 and 12
    having raised nothing: the line of the loader, the count of the
    descriptors, at most one line for each descriptor, and the closing
    line. *)
Theorem x12_console_of_a_run b64decode GLTF2_load glb out gltf imgs w :
  GLTF2_load (fs w) glb = Ok gltf →
  fst (make_output_dir out (fs w)) = Ok () →
  truthy_list (GLTF2.buffers gltf) ≠ None →
  truthy_list (GLTF2.images gltf) = Some imgs →
  ∃ body,
    stdout (exec (extract_textures_from_glb b64decode GLTF2_load glb out) w)
    = stdout w
      ++ ["Loading GLB file: " +:+ glb;
          "Found " +:+ pretty (length imgs) +:+ " images in the GLB file."]
      ++ body
      ++ [String "010"
            "Texture extraction complete. Check the extracted_textures directory."]
    ∧ (length body ≤ length imgs)%nat.
Proof.
  intros Hload Hdir Hbufs Himgs. unfold exec.
  rewrite (extract_run b64decode GLTF2_load glb out gltf w Hload), Hdir. simpl.
  unfold final. rewrite Himgs.
  destruct (truthy_list (GLTF2.buffers gltf)); [|done].
  match goal with |- context [turns b64decode gltf out 0 imgs ?w0] =>
    destruct (stdout_turns_shape b64decode gltf out 0 imgs w0) as (body & Hbody & Hlen)
  end.
  exists body. split; [|done]. unfold say at 1. simpl. rewrite Hbody. simpl.
  by rewrite <-!app_assoc.
Qed.

(** X19: a buffer view on a buffer that is read through its URI. The
    descriptor at position [i] has no URI, its view and its buffer resolve,
    the method [get_data_from_buffer_uri] returns the bytes [data] whatever
    the run has changed, and the range [offset, offset+length) lies in
    them; lines 11 and 12 raise nothing and the file can be opened. Then,
    after the run, the file [texture_<i>.<ext>] of the output directory
    holds exactly the bytes of that range. *)
Theorem x19_uri_buffer_payload b64decode GLTF2_load glb out gltf imgs i image bv view
    buffer buffer_uri data off len w :
  GLTF2_load (fs w) glb = Ok gltf →
  truthy_list (GLTF2.images gltf) = Some imgs →
  imgs !! i = Some image →
  truthy_str (Image.uri image) = None →
  Image.bufferView image = Val bv →
  buffer_view_of gltf bv = Ok view →
  buffer_of gltf view = Ok buffer →
  truthy_str (Buffer.uri buffer) = Some buffer_uri →
  (∀ f, run_changes out (fs w) f →
        GLTF2.get_data_from_buffer_uri gltf f buffer_uri = Ok (Some data)) →
  start_of (BufferView.byteOffset view) = Some off →
  BufferView.byteLength view = Val len →
  (0 ≤ off)%Z → (0 ≤ len)%Z → (off + len ≤ Z.of_nat (length data))%Z →
  let p := path_join out (texture_name i (extension_of (Image.mimeType image))) in
  fst (make_output_dir out (fs w)) = Ok () →
  open_error (snd (make_output_dir out (fs w))) p = None →
  ∃ payload,
    fs (exec (extract_textures_from_glb b64decode GLTF2_load glb out) w) !! p
    = Some (File payload)
    ∧ length payload = Z.to_nat len
    ∧ ∀ k : nat, (k < Z.to_nat len)%nat → payload !! k = data !! (Z.to_nat off + k)%nat.
Proof.
  intros Hload Himgs Hi Huri Hbv Hview Hbuffer Hburi Hdata Hoff Hlen Hoff0 Hlen0 Hfit
    p Hdir Hopen.
  assert (∀ f, run_changes out (fs w) f →
            resolve b64decode gltf out i image f
            = Ok (Write p (take (Z.to_nat len) (drop (Z.to_nat off) data))
                    ("Extracted " +:+ texture_name i (extension_of (Image.mimeType image))
                       +:+ " from buffer view " +:+ pretty bv))) as Hr.
  { intros f Hf.
    rewrite (ExtractorSpec.resolve_buffer_view b64decode gltf out i image bv view buffer
               buffer_uri data off len f); try done; [|by apply Hdata].
    cbv zeta. by rewrite PyFacts.slice_take_drop. }
  destruct (run_write b64decode GLTF2_load glb out gltf imgs i image _ _ _ w Hload
              (buffer_of_truthy _ _ _ Hbuffer) Himgs Hi Hr Hdir Hopen) as [Hfile _].
  eexists. split; [exact Hfile|]. split.
  - rewrite length_take, length_drop. lia.
  - intros k Hk. by rewrite lookup_take_lt, lookup_drop.
Qed.

(** X20: when [os.makedirs] raises on line 12, the run ends with its
    exception, having printed the first line only; no descriptor is looked
    at, and no file is created. *)
Theorem x20_output_dir_failure_is_fatal b64decode GLTF2_load glb out gltf e w :
  GLTF2_load (fs w) glb = Ok gltf →
  fst (make_output_dir out (fs w)) = Raise e →
  let w' := exec (extract_textures_from_glb b64decode GLTF2_load glb out) w in
  outcome (extract_textures_from_glb b64decode GLTF2_load glb out) w = Raise e
  ∧ stdout w' = stdout w ++ ["Loading GLB file: " +:+ glb]
  ∧ ∀ p content, fs w' !! p = Some (File content) → fs w !! p = Some (File content).
Proof.
  intros Hload Hdir w'. unfold w', outcome, exec.
  rewrite (extract_run b64decode GLTF2_load glb out gltf w Hload), Hdir. simpl.
  split_and!; [done..|].
  intros p content. apply grows_file with out, make_output_dir_grows.
Qed.

(** *** One turn of the loop *)

(** X4: a descriptor with neither a URI nor a buffer view is passed over
    without a word: its turn writes nothing and prints nothing. *)
Theorem x4_bare_descriptor_is_passed_over b64decode gltf out i image w :
  truthy_str (Image.uri image) = None →
  Image.bufferView image = Missing ∨ Image.bufferView image = IsNone →
  loop_body b64decode gltf out i image w = (Ok (), w).
Proof.
  intros Huri Hbv. rewrite loop_body_turn. unfold resolve. rewrite Huri.
  by destruct Hbv as [-> | ->].
Qed.

(** X5: when the method [get_data_from_buffer_uri] returns [None] for the
    URI of the buffer, the turn says so in one line that is not an error
    line, and writes nothing. *)
Theorem x5_buffer_without_bytes b64decode gltf out i image bv view buffer buffer_uri w :
  truthy_str (Image.uri image) = None →
  Image.bufferView image = Val bv →
  buffer_view_of gltf bv = Ok view →
  buffer_of gltf view = Ok buffer →
  truthy_str (Buffer.uri buffer) = Some buffer_uri →
  GLTF2.get_data_from_buffer_uri gltf (fs w) buffer_uri = Ok None →
  loop_body b64decode gltf out i image w
  = (Ok (),
     World (fs w) (stdout w ++ ["Could not get binary data for image " +:+ pretty i])).
Proof.
  intros Huri Hbv Hview Hbuffer Hburi Hdata. rewrite loop_body_turn. unfold resolve.
  rewrite Huri, Hbv, Hview. simpl. rewrite Hbuffer. simpl.
  unfold buffer_data_of. by rewrite Hburi, Hdata.
Qed.

(** X6: a buffer that is read through its URI, and a file that can be
    opened. Whatever the offset and the length of the view, negative ones
    too, the payload that the turn writes is a run of consecutive bytes of
    the buffer; no exception is raised for them. *)
Theorem x6_payload_is_part_of_buffer b64decode gltf out i image bv view buffer
    buffer_uri data off len w :
  truthy_str (Image.uri image) = None →
  Image.bufferView image = Val bv →
  buffer_view_of gltf bv = Ok view →
  buffer_of gltf view = Ok buffer →
  truthy_str (Buffer.uri buffer) = Some buffer_uri →
  GLTF2.get_data_from_buffer_uri gltf (fs w) buffer_uri = Ok (Some data) →
  start_of (BufferView.byteOffset view) = Some off →
  BufferView.byteLength view = Val len →
  let filename := texture_name i (extension_of (Image.mimeType image)) in
  open_error (fs w) (path_join out filename) = None →
  ∃ before payload after,
    data = before ++ payload ++ after
    ∧ loop_body b64decode gltf out i image w
      = (Ok (),
         World (<[path_join out filename := File payload]> (fs w))
           (stdout w
              ++ ["Extracted " +:+ filename +:+ " from buffer view " +:+ pretty bv])).
Proof.
  intros Huri Hbv Hview Hbuffer Hburi Hdata Hoff Hlen filename Hopen.
  destruct (slice_infix data off (off + len)) as (pre & post & Hsplit).
  exists pre, (slice data off (off + len)), post. split; [done|].
  rewrite loop_body_turn.
  rewrite (ExtractorSpec.resolve_buffer_view b64decode gltf out i image bv view
             buffer buffer_uri data off len) by done.
  simpl. fold filename. by rewrite Hopen.
Qed.


(** X8: a data URI without a comma is reported as an error, the failed
    unpacking of line 32; nothing is written. *)
Theorem x8_data_uri_without_comma b64decode gltf out i image u w :
  Image.uri image = Val u →
  startswith u "data:" = true →
  contains "," u = false →
  loop_body b64decode gltf out i image w
  = (Ok (),
     World (fs w)
       (stdout w
          ++ ["Error extracting image " +:+ pretty i
                +:+ ": not enough values to unpack (expected 2, got 1)"])).
Proof.
  intros Huri Hstart Hcomma. rewrite loop_body_turn. unfold resolve. rewrite Huri.
  assert (truthy_str (Val u) = Some u) as ->.
  { unfold truthy_str. destruct u; [done|]. done. }
  by rewrite Hstart, split1_no_sep.
Qed.

(** X9: when the decoder rejects the payload of a data URI, the turn
    reports the decoder's exception and creates no file, not even an empty
    one: the payload is decoded before the file is opened. *)
Theorem x9_undecodable_payload b64decode gltf out i image header payload e w :
  Image.uri image = Val (header +:+ "," +:+ payload) →
  startswith header "data:" = true →
  contains "," header = false →
  b64decode payload = Raise e →
  loop_body b64decode gltf out i image w
  = (Ok (),
     World (fs w)
       (stdout w ++ ["Error extracting image " +:+ pretty i +:+ ": " +:+ exn_str e])).
Proof.
  intros Huri Hstart Hcomma Hdecode. rewrite loop_body_turn. unfold resolve.
  rewrite Huri.
  assert (truthy_str (Val (header +:+ "," +:+ payload))
          = Some (header +:+ "," +:+ payload)) as -> by (by destruct header).
  rewrite (startswith_app _ _ _ Hstart).
  change ("," +:+ payload) with (String "," payload).
  rewrite (split1_first _ _ _ Hcomma). simpl. by rewrite Hdecode.
Qed.

(** X10: the file that a turn writes lies in the output directory itself:
    its name holds no [/], whatever the header of a data URI says. *)
Theorem x10_written_name_has_no_slash b64decode gltf out i image w p :
  fs (exec (loop_body b64decode gltf out i image) w) !! p ≠ fs w !! p →
  ∃ name, p = path_join out name ∧ contains "/" name = false.
Proof.
  intros (data & line & Hr & _)%loop_body_changed.
  destruct (resolve_write_name _ _ _ _ _ _ _ _ _ Hr) as (ext & -> & Hext).
  eexists. split; [done|]. by apply texture_name_no_slash.
Qed.

(** X11: two descriptors at different positions never write the same path,
    whatever their extensions. *)
Theorem x11_descriptors_never_collide b64decode gltf out i j image1 image2 w1 w2 p :
  fs (exec (loop_body b64decode gltf out i image1) w1) !! p ≠ fs w1 !! p →
  fs (exec (loop_body b64decode gltf out j image2) w2) !! p ≠ fs w2 !! p →
  i = j.
Proof.
  intros (d1 & l1 & Hr1 & _)%loop_body_changed (d2 & l2 & Hr2 & _)%loop_body_changed.
  destruct (resolve_write_path _ _ _ _ _ _ _ _ _ Hr1) as [e1 H1].
  destruct (resolve_write_path _ _ _ _ _ _ _ _ _ Hr2) as [e2 H2].
  apply (texture_path_inj out i j e1 e2). congruence.
Qed.

(** X21: a file that cannot be opened is an error of its descriptor alone.
    When the descriptor resolves to a payload and [open] raises (the output
    directory is a regular file, the name is too long, the path is a
    directory), the turn prints the error with the index of the descriptor,
    writes nothing and returns normally. *)
Theorem x21_unwritable_file_is_reported b64decode gltf out i image p data line e w :
  resolve b64decode gltf out i image (fs w) = Ok (Write p data line) →
  open_error (fs w) p = Some e →
  loop_body b64decode gltf out i image w
  = (Ok (),
     World (fs w)
       (stdout w ++ ["Error extracting image " +:+ pretty i +:+ ": " +:+ exn_str e])).
Proof.
  intros Hr Hopen. rewrite loop_body_turn, Hr. simpl. by rewrite Hopen.
Qed.

(** *** On the examples *)

Local Abbreviation example_run :=
  (extract_textures_from_glb Base64.decode Example.load "ValeroRefinery.glb"
     "extracted_textures").

(** No run into [extracted_textures] changes the file [scene.bin]. *)
Lemma example_scene f :
  run_changes "extracted_textures" (fs Example.w1) f →
  GLTF2.get_data_from_buffer_uri Example.gltf f "scene.bin" = Ok (Some Example.blob).
Proof.
  intros Hf. destruct (ExtractorSpec.example_reads f Hf) as [_ H].
  rewrite (H [Buffer.Make (Val "scene.bin")] (Buffer.Make (Val "scene.bin")) "scene.bin");
    [done|done|by apply list_elem_of_singleton|done].
Qed.

Lemma x1_load_failure_is_fatal_witness :
  outcome (extract_textures_from_glb Base64.decode Example.load "missing.glb" "out")
    Example.w0
  = Raise (Exn LibraryError "[Errno 2] No such file or directory: 'missing.glb'")
  ∧ fs (exec (extract_textures_from_glb Base64.decode Example.load "missing.glb" "out")
          Example.w0) = ∅
  ∧ stdout (exec (extract_textures_from_glb Base64.decode Example.load "missing.glb"
                    "out") Example.w0)
    = ["Loading GLB file: missing.glb"].
Proof.
  apply (x1_load_failure_is_fatal Base64.decode Example.load "missing.glb" "out"
           (Exn LibraryError "[Errno 2] No such file or directory: 'missing.glb'")
           Example.w0).
  reflexivity.
Defined.

Lemma x2_run_changes_texture_paths_only_witness :
  let w' := exec example_run Example.w1 in
  let n := from_option length 0 (truthy_list (GLTF2.images Example.gltf)) in
  ∃ paths : list string,
    (length paths ≤ n)%nat
    ∧ ∀ p, fs w' !! p ≠ fs Example.w1 !! p →
        ((∃ rest, "extracted_textures" = p +:+ rest)
         ∧ fs Example.w1 !! p = None ∧ fs w' !! p = Some Dir)
        ∨ (p ∈ paths
           ∧ ∃ (i : nat) ext data,
               (i < n)%nat ∧ p = path_join "extracted_textures" (texture_name i ext)
               ∧ contains "/" ext = false ∧ fs w' !! p = Some (File data)).
Proof.
  apply (x2_run_changes_texture_paths_only Base64.decode Example.load
           "ValeroRefinery.glb" "extracted_textures" Example.gltf Example.w1).
  reflexivity.
Defined.

Lemma x4_bare_descriptor_is_passed_over_witness :
  loop_body Base64.decode Example.gltf "extracted_textures" 0 Example2.bare Example.w0
  = (Ok (), Example.w0).
Proof.
  apply (x4_bare_descriptor_is_passed_over Base64.decode Example.gltf
           "extracted_textures" 0 Example2.bare Example.w0).
  - reflexivity.
  - right. reflexivity.
Defined.

(** Without the file [scene.bin], the buffer of the example has no bytes. *)
Lemma x5_buffer_without_bytes_witness :
  loop_body Base64.decode Example.gltf "extracted_textures" 0 Example.jpeg Example.w0
  = (Ok (), World ∅ ["Could not get binary data for image 0"]).
Proof.
  apply (x5_buffer_without_bytes Base64.decode Example.gltf "extracted_textures"
           0 Example.jpeg 0%Z (BufferView.Make (Val 0%Z) (Val 100%Z) (Val 50%Z))
           (Buffer.Make (Val "scene.bin")) "scene.bin" Example.w0); reflexivity.
Defined.

(** An offset of -10 with a length of 4 takes the bytes 190 to 193 of the
    200 bytes. *)
Lemma x6_payload_is_part_of_buffer_witness :
  ∃ before payload after,
    Example.blob = before ++ payload ++ after
    ∧ loop_body Base64.decode Example2.from_end "extracted_textures" 0 Example.jpeg
        Example.w2
      = (Ok (),
         World (<["extracted_textures/texture_0.jpg" := File payload]> (fs Example.w2))
           ["Extracted texture_0.jpg from buffer view 0"]).
Proof.
  apply (x6_payload_is_part_of_buffer Base64.decode Example2.from_end
           "extracted_textures" 0 Example.jpeg 0%Z
           (BufferView.Make (Val 0%Z) (Val (-10)%Z) (Val 4%Z))
           (Buffer.Make (Val "scene.bin")) "scene.bin"
           Example.blob (-10)%Z 4%Z Example.w2); reflexivity.
Defined.


Lemma x8_data_uri_without_comma_witness :
  loop_body Base64.decode Example.gltf "extracted_textures" 0 Example2.no_comma
    Example.w0
  = (Ok (),
     World ∅
       ["Error extracting image 0: not enough values to unpack (expected 2, got 1)"]).
Proof.
  apply (x8_data_uri_without_comma Base64.decode Example.gltf "extracted_textures" 0
           Example2.no_comma "data:image/png;base64" Example.w0); reflexivity.
Defined.

Lemma x9_undecodable_payload_witness :
  loop_body Base64.decode Example.gltf "extracted_textures" 0 Example2.bad_payload
    Example.w0
  = (Ok (), World ∅ ["Error extracting image 0: Incorrect padding"]).
Proof.
  apply (x9_undecodable_payload Base64.decode Example.gltf "extracted_textures" 0
           Example2.bad_payload "data:image/png;base64" "a" Base64.error Example.w0);
    reflexivity.
Defined.

Lemma x10_written_name_has_no_slash_witness :
  ∃ name, "extracted_textures/texture_1.png" = path_join "extracted_textures" name
          ∧ contains "/" name = false.
Proof.
  apply (x10_written_name_has_no_slash Base64.decode Example.gltf "extracted_textures"
           1 Example.png Example.w2 "extracted_textures/texture_1.png").
  vm_compute. discriminate.
Defined.

Lemma x11_descriptors_never_collide_witness : 1 = 1.
Proof.
  apply (x11_descriptors_never_collide Base64.decode Example.gltf "extracted_textures"
           1 1 Example.png Example.png Example.w2 Example.w2
           "extracted_textures/texture_1.png");
    vm_compute; discriminate.
Defined.

Lemma x12_console_of_a_run_witness :
  ∃ body,
    stdout (exec example_run Example.w0)
    = [] ++ ["Loading GLB file: ValeroRefinery.glb"; "Found 6 images in the GLB file."]
      ++ body
      ++ [String "010"
            "Texture extraction complete. Check the extracted_textures directory."]
    ∧ (length body ≤ 6)%nat.
Proof.
  apply (x12_console_of_a_run Base64.decode Example.load "ValeroRefinery.glb"
           "extracted_textures" Example.gltf
           [Example.jpeg; Example.png; Example.external; Example.dangling;
            Example.oversized; Example.named_view] Example.w0).
  - reflexivity.
  - reflexivity.
  - discriminate.
  - reflexivity.
Defined.

(** The JPEG of the example: offset 100 and length 50 in the 200 bytes of
    [scene.bin] give [texture_0.jpg] with the bytes 100 to 149. *)
Lemma x19_uri_buffer_payload_witness :
  ∃ payload,
    fs (exec example_run Example.w1) !! "extracted_textures/texture_0.jpg"
    = Some (File payload)
    ∧ length payload = 50
    ∧ ∀ k : nat, (k < 50)%nat → payload !! k = Example.blob !! (100 + k)%nat.
Proof.
  apply (x19_uri_buffer_payload Base64.decode Example.load "ValeroRefinery.glb"
           "extracted_textures" Example.gltf
           [Example.jpeg; Example.png; Example.external; Example.dangling;
            Example.oversized; Example.named_view]
           0 Example.jpeg 0%Z
           (BufferView.Make (Val 0%Z) (Val 100%Z) (Val 50%Z))
           (Buffer.Make (Val "scene.bin")) "scene.bin"
           Example.blob 100%Z 50%Z Example.w1);
    try reflexivity; try lia; try apply example_scene.
  vm_compute. discriminate.
Defined.

(** The empty string for the output directory. *)
Lemma x20_output_dir_failure_is_fatal_witness :
  let w' :=
    exec (extract_textures_from_glb Base64.decode Example.load "ValeroRefinery.glb" "")
      Example.w1 in
  outcome (extract_textures_from_glb Base64.decode Example.load "ValeroRefinery.glb" "")
    Example.w1
  = Raise (Exn FileNotFoundError "[Errno 2] No such file or directory: ''")
  ∧ stdout w' = [] ++ ["Loading GLB file: ValeroRefinery.glb"]
  ∧ ∀ p content, fs w' !! p = Some (File content) →
                 fs Example.w1 !! p = Some (File content).
Proof.
  apply (x20_output_dir_failure_is_fatal Base64.decode Example.load
           "ValeroRefinery.glb" "" Example.gltf
           (Exn FileNotFoundError "[Errno 2] No such file or directory: ''")
           Example.w1); reflexivity.
Defined.

(** The regular file [scene.bin] for the output directory. *)
Lemma x21_unwritable_file_is_reported_witness :
  loop_body Base64.decode Example.gltf "scene.bin" 1 Example.png Example.w1
  = (Ok (),
     World (fs Example.w1)
       ["Error extracting image 1: [Errno 20] Not a directory: 'scene.bin/texture_1.png'"]).
Proof.
  apply (x21_unwritable_file_is_reported Base64.decode Example.gltf "scene.bin" 1
           Example.png "scene.bin/texture_1.png" (list_byte_of_string "hello")
           "Extracted texture_1.png from data URI"
           (Exn NotADirectoryError "[Errno 20] Not a directory: 'scene.bin/texture_1.png'")
           Example.w1); reflexivity.
Defined.

End ExtractorMore.

(** ** More on the renamer: the passes on the material file *)

Module MtlMore.
Import Mtl MtlModel Listing MtlSpec.

(** *** Helpers *)

Lemma material_of_line_raise line e :
  material_of_line line = Raise e → e = Exn IndexError "list index out of range".
Proof.
  unfold material_of_line, getitem. cbv zeta.
  destruct (1 <? 0)%Z; (destruct (_ <? 0)%Z; [congruence|]);
    destruct (_ !! _); congruence.
Qed.

Lemma dots_id s : contains "010" s = false → dots s = s.
Proof.
  induction s as [|c s IH]; simpl; [done|].
  intros [-> Hs]%orb_false_iff. by rewrite IH.
Qed.

Lemma dots_split s : ∃ rest, s = dots s +:+ rest.
Proof.
  induction s as [|c s [rest IH]]; simpl; [by exists ""|].
  destruct (Ascii.eqb c "010"); [by eexists|].
  exists rest. change (String c (dots s) +:+ rest) with (String c (dots s +:+ rest)).
  by rewrite <-IH.
Qed.

Lemma substring_all s : String.substring 0 (String.length s) s = s.
Proof. induction s as [|c s IH]; simpl; [done|]. by rewrite IH. Qed.

Lemma startswith_split s p :
  startswith s p = true →
  s = p +:+ String.substring (String.length p) (String.length s - String.length p) s.
Proof.
  unfold startswith. revert s. induction p as [|c p IH]; intros s; simpl.
  - intros _. rewrite Nat.sub_0_r. change ("" +:+ ?x) with x.
    by rewrite substring_all.
  - destruct s as [|a s]; [done|]. simpl.
    destruct (ascii_dec c a) as [->|]; [|done]. intros Hp.
    change (String a p +:+ ?x) with (String a (p +:+ x)). f_equal. by apply IH.
Qed.

Lemma contains_app_false c a b :
  contains c (a +:+ b) = false → contains c a = false ∧ contains c b = false.
Proof.
  induction a as [|x a IH]; [done|].
  change (String x a +:+ b) with (String x (a +:+ b)). simpl.
  intros [-> Hab]%orb_false_iff. by apply IH.
Qed.

Lemma contains_cons_false c a s : contains c (String a s) = false → contains c s = false.
Proof. simpl. by intros [_ ?]%orb_false_iff. Qed.

(** What [search_material] finds is not empty and follows [Material_]. *)
Lemma search_material_some m s :
  contains "010" m = false → search_material m = Some s →
  s ≠ "" ∧ ∃ pre, m = pre +:+ "Material_" +:+ s.
Proof.
  induction m as [|c m IH]; intros Hm; [done|].
  cbn [search_material].
  destruct (startswith (String c m) "Material_") eqn:Hstart.
  - remember (String.substring 9 (String.length (String c m) - 9) (String c m))
      as tail eqn:Htail.
    assert (String c m = "Material_" +:+ tail) as Hsplit
      by (subst tail; exact (startswith_split _ _ Hstart)).
    assert (dots tail = tail) as Hdots.
    { apply dots_id. rewrite Hsplit in Hm. by apply contains_app_false in Hm as [_ ?]. }
    rewrite Hdots. clear Htail Hdots. destruct tail as [|t tl].
    + intros Hs. apply contains_cons_false in Hm.
      destruct (IH Hm Hs) as (Hne & pre & ->). split; [done|].
      by exists (String c pre).
    + intros [= <-]. split; [done|]. by exists "".
  - intros Hs. apply contains_cons_false in Hm.
    destruct (IH Hm Hs) as (Hne & pre & ->). split; [done|].
    by exists (String c pre).
Qed.

Lemma search_material_convention s :
  s ≠ "" → contains "010" s = false → search_material ("Material_" +:+ s) = Some s.
Proof.
  intros Hne Hs.
  change ("Material_" +:+ s) with (String "M" ("aterial_" +:+ s)).
  cbn [search_material].
  change (String "M" ("aterial_" +:+ s)) with ("Material_" +:+ s).
  assert (startswith ("Material_" +:+ s) "Material_" = true) as -> by (by destruct s).
  assert (String.substring 9 (String.length ("Material_" +:+ s) - 9) ("Material_" +:+ s)
          = s) as ->.
  { change (String.length ("Material_" +:+ s)) with (9 + String.length s).
    replace (9 + String.length s - 9) with (String.length s) by lia.
    apply substring_all. }
  rewrite dots_id by done. by destruct s.
Qed.

(** The dictionary after the mapping loop, key by key. *)
Lemma map_materials_lookup textures materials m0 w :
  ∃ map w',
    map_materials textures materials m0 w = (Ok map, w')
    ∧ ∀ m, map !! m
           = match (if bool_decide (m ∈ materials) then texture_for textures m
                    else None) with
             | Some t => Some t
             | None => m0 !! m
             end.
Proof.
  revert m0 w. induction materials as [|x materials IH]; intros m0 w; simpl.
  - by exists m0, w.
  - assert (∀ map g : gmap string string,
              (∀ m, map !! m
                    = match (if bool_decide (m ∈ materials) then texture_for textures m
                             else None) with
                      | Some t => Some t
                      | None => g !! m
                      end) →
              (∀ m, g !! m = if decide (m = x)
                             then match texture_for textures x with
                                  | Some t => Some t
                                  | None => m0 !! m
                                  end
                             else m0 !! m) →
              ∀ m, map !! m
                   = match (if bool_decide (m ∈ x :: materials)
                            then texture_for textures m else None) with
                     | Some t => Some t
                     | None => m0 !! m
                     end) as Hstep.
    { intros map g Hmap Hg m. rewrite Hmap, Hg.
      destruct (decide (m = x)) as [->|Hne].
      - rewrite (bool_decide_true (x ∈ x :: materials)) by (by left).
        case_bool_decide; by destruct (texture_for textures x).
      - case_bool_decide as Hin.
        + by rewrite bool_decide_true by (by right).
        + rewrite bool_decide_false; [done|].
          by intros [?|?]%elem_of_cons. }
    destruct (search_material x) as [sx|] eqn:Hx.
    + case_bool_decide as Htex; unfold mbind, M_bind, print; simpl.
      * match goal with |- context [map_materials _ _ ?g ?w1] =>
          destruct (IH g w1) as (map & w' & -> & Hmap) end.
        exists map, w'. split; [done|]. eapply Hstep; [done|].
        intros m. unfold texture_for. rewrite Hx, bool_decide_true by done.
        rewrite lookup_insert. case_decide; by case_decide; subst.
      * match goal with |- context [map_materials _ _ ?g ?w1] =>
          destruct (IH g w1) as (map & w' & -> & Hmap) end.
        exists map, w'. split; [done|]. eapply Hstep; [done|].
        intros m. unfold texture_for. rewrite Hx, bool_decide_false by done.
        by case_decide.
    + destruct (IH m0 w) as (map & w' & -> & Hmap).
      exists map, w'. split; [done|]. eapply Hstep; [done|].
      intros m. unfold texture_for. rewrite Hx. by case_decide.
Qed.

Lemma spec_update_from_unmapped map before lines :
  (∀ m, map !! m = None) → spec_update_from map before lines = lines.
Proof.
  intros Hmap. revert before.
  induction lines as [|line lines IH]; intros before; simpl; [done|].
  rewrite IH. unfold inserted. destruct (startswith line "illum"); [|done].
  destruct (owner before) as [m|]; [|done].
  rewrite Hmap. rewrite bool_decide_false; [done|]. by intros [? ?].
Qed.

#[local] Arguments String.append !s1 s2 : simpl nomatch.

(** Reading the lines of a text and writing them gives the text back. *)
Lemma written_readlines text : written (readlines text) = text.
Proof.
  induction text as [|c t IH]; simpl; [done|].
  destruct (Ascii.eqb_spec c "010") as [->|Hc].
  - simpl. by rewrite IH.
  - destruct (readlines t) as [|l ls] eqn:Hl.
    + apply readlines_nil in Hl. by subst.
    + simpl in *. by rewrite IH.
Qed.

Lemma endswith_app a b : endswith (a +:+ b) b = true.
Proof.
  induction a as [|c a IH].
  - change ("" +:+ b) with b. destruct b; [done|].
    cbn [endswith]. by rewrite String.eqb_refl.
  - change (String c a +:+ b) with (String c (a +:+ b)). cbn [endswith].
    rewrite IH. apply orb_true_r.
Qed.

#[local] Arguments String.append : simpl never.

Lemma expected_texture_png suffix : endswith (expected_texture suffix) ".png" = true.
Proof.
  unfold expected_texture.
  rewrite <-(PyFacts.app_string_assoc "Image_" suffix ".png"). apply endswith_app.
Qed.

Lemma spec_update_from_sublist map before lines :
  lines `sublist_of` spec_update_from map before lines
  ∧ ∀ s, s ∈ spec_update_from map before lines →
         s ∈ lines ∨ ∃ m, is_Some (map !! m) ∧ s = map_Kd_line m.
Proof.
  revert before. induction lines as [|line lines IH]; intros before; simpl.
  - split; [done|]. by intros s ?%elem_of_nil.
  - destruct (IH (before ++ [line])) as [Hsub Hin]. split.
    + apply sublist_skip. by apply sublist_inserts_l.
    + intros s [->|[Hs|Hs]%elem_of_app]%elem_of_cons.
      * left. by left.
      * right. unfold inserted in Hs.
        destruct (startswith line "illum"); [|by apply elem_of_nil in Hs].
        destruct (owner before) as [m|]; [|by apply elem_of_nil in Hs].
        case_bool_decide; [|by apply elem_of_nil in Hs].
        apply list_elem_of_singleton in Hs. eauto.
      * destruct (Hin s Hs) as [?|?]; [left; by right|by right].
Qed.

(** *** The properties *)

(** X13: the first pass returns the names on the [newmtl] lines, in the
    order of the file, one for each such line; it raises, and [IndexError]
    only, exactly when one of these lines carries no name. *)
Theorem x13_materials_in_file_order lines :
  (∀ materials,
     read_materials lines = Ok materials ↔
     Forall2 (λ line m, material_of_line line = Ok m)
       (filter (λ line, startswith line "newmtl" = true) lines) materials)
  ∧ (∀ e, read_materials lines = Raise e →
          e = Exn IndexError "list index out of range"
          ∧ ∃ line, line ∈ lines ∧ startswith line "newmtl" = true
                    ∧ material_of_line line = Raise e).
Proof.
  induction lines as [|line lines [IHok IHraise]]; simpl.
  - split; [|done]. intros materials. rewrite filter_nil. split.
    + intros [= <-]. constructor.
    + by intros ->%Forall2_nil_inv_l.
  - destruct (startswith line "newmtl") eqn:Hnew.
    + rewrite filter_cons_True by done.
      destruct (material_of_line line) as [m|e0] eqn:Hm; simpl.
      * destruct (read_materials lines) as [ms|e1] eqn:Hrest; simpl; split.
        -- intros materials. split.
           ++ intros [= <-]. constructor; [done|]. by apply IHok.
           ++ intros (m' & ms' & Hm' & Hms' & ->)%Forall2_cons_inv_l.
              apply IHok in Hms'. congruence.
        -- done.
        -- intros materials. split; [done|].
           intros (m' & ms' & Hm' & Hms' & ->)%Forall2_cons_inv_l.
           apply IHok in Hms'. done.
        -- intros e [= <-]. destruct (IHraise e1 eq_refl) as (He & l & Hl & Hn & Hr).
           split; [done|]. exists l. split; [by right|done].
      * split.
        -- intros materials. split; [done|].
           intros (m' & ms' & Hm' & Hms' & ->)%Forall2_cons_inv_l. congruence.
        -- intros e [= <-]. split; [by eapply material_of_line_raise|].
           exists line. split; [by left|done].
    + rewrite filter_cons_False by congruence. split; [done|].
      intros e He. destruct (IHraise e He) as (? & l & Hl & Hn & Hr).
      split; [done|]. exists l. split; [by right|done].
Qed.

(** X14: the naming convention of the comment on line 34. A material
    [Material_<suffix>] has the suffix that follows [Material_], whatever it
    is; and for any name without a line end, a suffix that is found is not
    empty and is what follows a part [Material_] of the name. *)
Theorem x14_material_suffix :
  (∀ suffix, suffix ≠ "" → contains "010" suffix = false →
     search_material ("Material_" +:+ suffix) = Some suffix)
  ∧ (∀ material suffix, contains "010" material = false →
       search_material material = Some suffix →
       suffix ≠ "" ∧ ∃ pre, material = pre +:+ "Material_" +:+ suffix).
Proof.
  split.
  - apply search_material_convention.
  - apply search_material_some.
Qed.

(** X15: after the mapping loop, the dictionary holds, for each material of
    the file, the texture [Image_<suffix>.png] of its suffix when that name
    is in the listing, and nothing else; a name that comes twice is mapped
    once. *)
Theorem x15_dictionary_after_mapping textures materials w :
  ∃ map w',
    map_materials textures materials ∅ w = (Ok map, w')
    ∧ ∀ material texture,
        map !! material = Some texture ↔
        material ∈ materials
        ∧ ∃ suffix, search_material material = Some suffix
                    ∧ texture = "Image_" +:+ suffix +:+ ".png"
                    ∧ texture ∈ textures.
Proof.
  destruct (map_materials_lookup textures materials ∅ w) as (map & w' & Hrun & Hmap).
  exists map, w'. split; [done|]. intros material texture.
  rewrite Hmap, lookup_empty. unfold texture_for.
  case_bool_decide as Hin; [|split; [done|by intros [? _]]].
  destruct (search_material material) as [suffix|];
    [|split; [done|by intros (_ & ? & ? & _)]].
  case_bool_decide as Htex; split.
  - intros [= <-]. split; [done|]. by exists suffix.
  - intros (_ & s & [= <-] & -> & _). done.
  - done.
  - intros (_ & s & [= <-] & -> & ?). done.
Qed.

(** X16: with an empty texture listing nothing is mapped, and the updated
    file has the text of the material file, byte for byte. *)
Theorem x16_no_texture_no_change text materials w :
  read_materials (readlines text) = Ok materials →
  ∃ w',
    map_materials [] materials ∅ w = (Ok ∅, w')
    ∧ update_mtl ∅ None (readlines text) = (readlines text, None)
    ∧ written (fst (update_mtl ∅ None (readlines text))) = text.
Proof.
  intros Hread.
  destruct (map_materials_lookup [] materials ∅ w) as (map & w' & Hrun & Hmap).
  assert (map = ∅) as ->.
  { apply map_eq. intros m. rewrite Hmap, lookup_empty. unfold texture_for.
    case_bool_decide; [|done]. destruct (search_material m); [|done].
    rewrite bool_decide_false; [done|]. by intros ?%elem_of_nil. }
  exists w'. split; [done|].
  assert (update_mtl ∅ None (readlines text) = (readlines text, None)) as Hup.
  { rewrite (update_mtl_from ∅ [] _ materials Hread).
    by rewrite spec_update_from_unmapped by (intros; apply lookup_empty). }
  split; [done|]. rewrite Hup. apply written_readlines.
Qed.

(** X17: the rewriting pass drops, changes and reorders no line: the lines
    of the material file are a subsequence of what is written, and every
    other string written is the [map_Kd] line of a mapped material. *)
Theorem x17_lines_are_kept map lines materials :
  read_materials lines = Ok materials →
  lines `sublist_of` fst (update_mtl map None lines)
  ∧ ∀ s, s ∈ fst (update_mtl map None lines) →
         s ∈ lines ∨ ∃ m, is_Some (map !! m) ∧ s = map_Kd_line m.
Proof.
  intros Hread. pose proof (update_mtl_from map [] lines materials Hread) as Hup.
  change (owner []) with (@None string) in Hup. rewrite Hup. simpl.
  apply spec_update_from_sublist.
Qed.

(** X18: lines 29 and 30 keep exactly the names of the listing that end in
    [.png], in ascending order; sorting and filtering hide no texture from
    the mapping loop, which finds for every material the texture it would
    find in the raw listing. *)
Theorem x18_textures_of_listing listing :
  Sorted String.le (textures_of listing)
  ∧ (∀ f, f ∈ textures_of listing ↔ f ∈ listing ∧ endswith f ".png" = true)
  ∧ (∀ material, texture_for (textures_of listing) material
                 = texture_for listing material).
Proof.
  assert (∀ f, f ∈ textures_of listing ↔ f ∈ listing ∧ endswith f ".png" = true)
    as Hin.
  { intros f. unfold textures_of. rewrite merge_sort_Permutation.
    rewrite list_elem_of_filter. tauto. }
  split; [apply (Sorted_merge_sort String.le)|]. split; [done|].
  intros material. unfold texture_for.
  destruct (search_material material) as [suffix|]; [|done].
  assert (bool_decide (expected_texture suffix ∈ textures_of listing)
          = bool_decide (expected_texture suffix ∈ listing)) as ->; [|done].
  apply bool_decide_ext. rewrite Hin. pose proof (expected_texture_png suffix). tauto.
Qed.

(** The material file of the example with an empty texture directory. *)
Lemma x16_no_texture_no_change_witness :
  ∃ w',
    map_materials [] ["Material_0.1000"; "Wood"; "Material_7"] ∅ Example.w0 = (Ok ∅, w')
    ∧ update_mtl ∅ None (readlines Example.mtl) = (readlines Example.mtl, None)
    ∧ written (fst (update_mtl ∅ None (readlines Example.mtl))) = Example.mtl.
Proof.
  apply (x16_no_texture_no_change Example.mtl
           ["Material_0.1000"; "Wood"; "Material_7"] Example.w0).
  reflexivity.
Defined.

Lemma x17_lines_are_kept_witness :
  readlines Example.mtl
    `sublist_of` fst (update_mtl {[ "Material_7" := "Image_7.png" ]} None
                        (readlines Example.mtl))
  ∧ ∀ s, s ∈ fst (update_mtl {[ "Material_7" := "Image_7.png" ]} None
                    (readlines Example.mtl)) →
         s ∈ readlines Example.mtl
         ∨ ∃ m, is_Some (({[ "Material_7" := "Image_7.png" ]} : gmap string string) !! m)
                ∧ s = map_Kd_line m.
Proof.
  apply (x17_lines_are_kept {[ "Material_7" := "Image_7.png" ]} (readlines Example.mtl)
           ["Material_0.1000"; "Wood"; "Material_7"]).
  reflexivity.
Defined.

End MtlMore.

